(** * zoho_log_time.py: a shallow embedding and its properties

    The script exchanges a refresh token for an access token, computes
    yesterday's date and a duration from two clock strings, and posts one
    time log.  Everything outside the script (environment variables, the
    time-zone database and the clock, the HTTP transport, the JSON decoder)
    is gathered in a record [World]; the script's functions are written in a
    small writer/error monad whose log is the list of observable events
    (network calls and printed lines) in program order. *)

From Stdlib Require Import ZArith Lia Ascii String.
From Stdlib Require Import SpecFloat.
From stdpp Require Import base option list strings gmap pretty.

Local Set Warnings "-register-all".
Local Open Scope string_scope.
Local Open Scope list_scope.
Local Open Scope Z_scope.

(** ** Python values *)

(** What [json.loads] can return.  A dict is kept as a finite map on its
    keys. *)
Inductive pyval : Type :=
  | PNone
  | PBool (b : bool)
  | PInt (z : Z)
  | PFloat (f : spec_float)
  | PStr (s : string)
  | PList (l : list pyval)
  | PDict (d : gmap string pyval).

(** [bool(v)]: None, False, zero, and empty containers are false. *)
Definition truthy (v : pyval) : bool :=
  match v with
  | PNone => false
  | PBool b => b
  | PInt z => negb (z =? 0)
  | PFloat (S754_zero _) => false
  | PFloat _ => true
  | PStr s => negb (String.eqb s EmptyString)
  | PList l => match l with [] => false | _ => true end
  | PDict d => negb (bool_decide (d = ∅))
  end.

(** ** Exceptions, results, events *)

(** An [HTTPError] carries its status code, its reason phrase and its body
    as [e.read().decode("utf-8")] gives it: [None] when the body's bytes do not
    decode, in which case that call raises UnicodeDecodeError. *)
Inductive exn : Type :=
  | HTTPError (code : Z) (reason : string) (body : option string)
  | UnicodeDecodeError
  | ValueError_key (key : string)
  | TransportError (text : string)
  | JSONDecodeError (text : string)
  | ValueError_literal (s : string)
  | ValueError_unpack (got : nat)
  | ValueError_field (field : string)
  | AttributeError (attr : string)
  | OverflowError
  | ZoneInfoNotFoundError (key : string).

Inductive result (A : Type) : Type :=
  | Ret (a : A)
  | SysExit (code : Z)
  | Raise (e : exn).
Arguments Ret {A} a.
Arguments SysExit {A} code.
Arguments Raise {A} e.

Inductive stream : Type := Stdout | Stderr.

(** The arguments of one [print] call or the parts of one f-string. *)
Inductive piece : Type :=
  | Txt (s : string)
  | Num (z : Z)
  | Fmt (v : pyval)
  | ExnText (e : exn).

Record request : Type := Request {
  url : string;
  data : list (string * string);
  headers : list (string * list piece);
  method : string
}.

Inductive event : Type :=
  | Print (to : stream) (msg : list piece)
  | Urlopen (req : request).

Record response : Type := Response { status : Z; body : string }.

(** ** The monad *)

Definition M (A : Type) : Type := (result A * list event)%type.

Definition ret {A} (a : A) : M A := (Ret a, []).
Definition bind {A B} (k : A → M B) (m : M A) : M B :=
  match m with
  | (Ret a, t) => let '(r, t') := k a in (r, t ++ t')
  | (SysExit c, t) => (SysExit c, t)
  | (Raise e, t) => (Raise e, t)
  end.
#[global] Instance M_ret : MRet M := @ret.
#[global] Instance M_bind : MBind M := @bind.

Definition emit (e : event) : M unit := (Ret tt, [e]).
Definition sys_exit {A} (code : Z) : M A := (SysExit code, []).
Definition raise {A} (e : exn) : M A := (Raise e, []).
Definition print (to : stream) (msg : list piece) : M unit := emit (Print to msg).
(** A computation without events. *)
Definition pure {A} (r : result A) : M A := (r, []).

(** ** Strings: [str.split(":")] and [int(str)] *)

Definition colon : ascii := ":"%char.

(** [s.split(":")]: never empty; the empty string gives one empty part. *)
Fixpoint split_colon_go (s : string) (cur : string) : list string :=
  match s with
  | EmptyString => [String.rev cur]
  | String c s' =>
      if Ascii.eqb c colon then String.rev cur :: split_colon_go s' EmptyString
      else split_colon_go s' (String c cur)
  end.
Definition split_colon (s : string) : list string := split_colon_go s EmptyString.

(** White space that [int] strips from an ASCII string: tab, line feed,
    vertical tab, form feed, carriage return and space. *)
Definition is_space (c : ascii) : bool :=
  let n := N_of_ascii c in
  ((9 <=? n) && (n <=? 13) || (n =? 32))%N.

Definition digit_val (c : ascii) : option Z :=
  let n := N_of_ascii c in
  if ((48 <=? n) && (n <=? 57))%N then Some (Z.of_N n - 48) else None.

Fixpoint lstrip (s : string) : string :=
  match s with
  | String c s' => if is_space c then lstrip s' else s
  | EmptyString => EmptyString
  end.
Definition strip (s : string) : string :=
  String.rev (lstrip (String.rev (lstrip s))).

(** Digits with single underscores between them: [after_digit] tells whether
    the previous character was a digit, the only place where an underscore
    or the end of the literal is allowed. *)
Fixpoint int_digits (s : string) (acc : Z) (after_digit : bool) : option Z :=
  match s with
  | EmptyString => if after_digit then Some acc else None
  | String c s' =>
      match digit_val c with
      | Some d => int_digits s' (10 * acc + d) true
      | None =>
          if Ascii.eqb c "_"%char && after_digit then int_digits s' acc false
          else None
      end
  end.

(** [int(s)], base 10, for an ASCII string: optional white space around an
    optional sign and the digits.  (The interpreter's cap on the number of
    digits is left out; it turns some very long literals into the same
    ValueError.) *)
Definition py_int (s : string) : result Z :=
  let body := strip s in
  let signed :=
    match body with
    | String "+" rest => int_digits rest 0 false
    | String "-" rest => Z.opp <$> int_digits rest 0 false
    | _ => int_digits body 0 false
    end in
  match signed with
  | Some z => Ret z
  | None => Raise (ValueError_literal s)
  end.

(** [a, b = map(int, parts)]: the map is consumed lazily, so each part is
    converted before the number of parts is found wrong. *)
Definition unpack2_int (parts : list string) : M (Z * Z) :=
  match parts with
  | [] => raise (ValueError_unpack 0)
  | [a] => pure (py_int a);; raise (ValueError_unpack 1)
  | [a; b] => x ← pure (py_int a); y ← pure (py_int b); mret (x, y)
  | a :: b :: c :: _ =>
      pure (py_int a);; pure (py_int b);; pure (py_int c);;
      raise (ValueError_unpack 3)
  end.

(** [f"{n:02d}"]: decimal, padded with zeros on the left to two characters;
    the sign counts in the width. *)
Definition fmt02d (n : Z) : string :=
  match n with
  | Zneg p => "-" +:+ pretty (Npos p)
  | _ => let s := pretty (Z.to_N n) in
         if (String.length s <? 2)%nat then "0" +:+ s else s
  end.

(** ** Dates and times, as far as the script uses [datetime] *)

(** An aware [datetime] in a fixed zone: the wall-clock fields.  All values
    of one run carry the same [tzinfo] object, so comparison and subtraction
    work on these fields alone. *)
Record datetime : Type := DateTime {
  year : Z; month : Z; day : Z;
  hour : Z; minute : Z; second : Z; microsecond : Z
}.

Record timedelta : Type := TimeDelta { days : Z; seconds : Z; microseconds : Z }.

Definition is_leap (y : Z) : bool :=
  (y mod 4 =? 0) && (negb (y mod 100 =? 0) || (y mod 400 =? 0)).

Definition days_in_month (y m : Z) : Z :=
  if m =? 2 then (if is_leap y then 29 else 28)
  else if (m =? 4) || (m =? 6) || (m =? 9) || (m =? 11) then 30
  else 31.

Definition days_before_year (y : Z) : Z :=
  let p := y - 1 in p * 365 + p / 4 - p / 100 + p / 400.

Fixpoint days_before_month_go (y : Z) (k : nat) : Z :=
  match k with
  | O => 0
  | S k' => days_before_month_go y k' + days_in_month y (Z.of_nat k)
  end.
Definition days_before_month (y m : Z) : Z :=
  days_before_month_go y (Z.to_nat (m - 1)).

(** [d.toordinal()]: 0001-01-01 is day 1. *)
Definition toordinal (d : datetime) : Z :=
  days_before_year (year d) + days_before_month (year d) (month d) + day d.

Definition valid_date (d : datetime) : bool :=
  (1 <=? year d) && (year d <=? 9999) &&
  (1 <=? month d) && (month d <=? 12) &&
  (1 <=? day d) && (day d <=? days_in_month (year d) (month d)).

(** [d - timedelta(days=1)]: the same wall-clock time on the previous
    calendar day; before 0001-01-01 there is no date. *)
Definition minus_one_day (d : datetime) : result datetime :=
  let at_date y m dd :=
    DateTime y m dd (hour d) (minute d) (second d) (microsecond d) in
  if 1 <? day d then Ret (at_date (year d) (month d) (day d - 1))
  else if 1 <? month d then
    Ret (at_date (year d) (month d - 1) (days_in_month (year d) (month d - 1)))
  else if 1 <? year d then Ret (at_date (year d - 1) 12 31)
  else Raise OverflowError.

(** [d.replace(hour=h, minute=m, second=0, microsecond=0)] *)
Definition replace_time (d : datetime) (h m : Z) : result datetime :=
  if negb ((0 <=? h) && (h <=? 23)) then Raise (ValueError_field "hour")
  else if negb ((0 <=? m) && (m <=? 59)) then Raise (ValueError_field "minute")
  else Ret (DateTime (year d) (month d) (day d) h m 0 0).

Definition fields (d : datetime) : list Z :=
  [year d; month d; day d; hour d; minute d; second d; microsecond d].

Fixpoint lex_le (a b : list Z) : bool :=
  match a, b with
  | x :: a', y :: b' => (x <? y) || ((x =? y) && lex_le a' b')
  | [], _ => true
  | _ :: _, [] => false
  end.

(** [a <= b] on two datetimes of the same zone. *)
Definition dt_le (a b : datetime) : bool := lex_le (fields a) (fields b).

(** The [timedelta] constructor's normalisation. *)
Definition mk_timedelta (d s us : Z) : timedelta :=
  let s1 := s + us / 1000000 in
  TimeDelta (d + s1 / 86400) (s1 mod 86400) (us mod 1000000).

(** [a - b] on two datetimes of the same zone. *)
Definition dt_sub (a b : datetime) : timedelta :=
  let secs (d : datetime) := second d + minute d * 60 + hour d * 3600 in
  mk_timedelta (toordinal a - toordinal b) (secs a - secs b)
               (microsecond a - microsecond b).

Fixpoint zeros (n : nat) : string :=
  match n with O => EmptyString | S n' => String "0" (zeros n') end.
Definition zfill (w : nat) (s : string) : string :=
  zeros (w - String.length s) +:+ s.

(** [d.strftime("%m-%d-%Y")] *)
Definition strftime_mdY (d : datetime) : string :=
  zfill 2 (pretty (month d)) +:+ "-" +:+ zfill 2 (pretty (day d)) +:+ "-" +:+
  zfill 4 (pretty (year d)).

(** ** The world around the script *)

Record World : Type := {
  (** [os.environ], its values as text (values that came from bytes that
      are not UTF-8, on which [urlencode] raises, are left out) *)
  environ : gmap string string;
  (** whether [ZoneInfo(key)] finds the key (otherwise it raises) *)
  zone_known : string → bool;
  (** what [ZoneInfo(key)] raises for a key it does not find:
      ZoneInfoNotFoundError, or ValueError for a key that is not a normalised
      relative path, such as the empty string *)
  zone_failure : string → exn;
  (** [datetime.now(tz)] for the zone of that key *)
  now_in : string → datetime;
  (** [urlopen(req)] with the body read and decoded; [inl] when any of them
      raises *)
  urlopen : request → exn + response;
  (** [json.loads] *)
  json_loads : string → exn + pyval
}.

(** [str(v)] of a value that is a string or None, as f-strings and
    [urlencode] apply it. *)
Definition str_of (v : option string) : string := default "None" v.

(** Using as a string a value that [get_env] returned.  The script does so
    only where it passed a default, so the value is never None there; the
    second case is what Python would do otherwise. *)
Definition the_str (v : option string) : M string :=
  match v with
  | Some s => mret s
  | None => raise (AttributeError "NoneType")
  end.

(** [e.read().decode("utf-8")] on an HTTP error, inside the [except] clause
    that caught it: what it raises there is caught by nothing. *)
Definition decoded (err_body : option string) : M string :=
  match err_body with
  | Some text => mret text
  | None => raise UnicodeDecodeError
  end.

(** [bool(value)] for what [os.getenv] returns. *)
Definition nonempty (v : option string) : bool :=
  match v with Some s => negb (String.eqb s EmptyString) | None => false end.

Definition MISSING : string := "Missing required environment variable: ".

Section Script.
Variable w : World.

(** [os.getenv(name, default)] *)
Definition getenv (name : string) (dflt : option string) : option string :=
  match environ w !! name with
  | Some v => Some v
  | None => dflt
  end.

Definition get_env (name : string) (dflt : option string) (required : bool)
  : M (option string) :=
  let value := getenv name dflt in
  if required && negb (nonempty value)
  then print Stderr [Txt (MISSING +:+ name)];; sys_exit 1
  else mret value.

Definition token_request (refresh_token client_id client_secret dc : option string)
  : request :=
  {| url := "https://" +:+ str_of dc +:+ "/oauth/v2/token";
     data := [("refresh_token", str_of refresh_token);
              ("client_id", str_of client_id);
              ("client_secret", str_of client_secret);
              ("grant_type", "refresh_token")];
     headers := [];
     method := "POST" |}.

(** [js.get("access_token")] *)
Definition js_get (js : pyval) (key : string) : M pyval :=
  match js with
  | PDict d => mret (default PNone (d !! key))
  | _ => raise (AttributeError "get")
  end.

Definition get_access_token : M pyval :=
  client_id ← get_env "ZOHO_CLIENT_ID" None true;
  client_secret ← get_env "ZOHO_CLIENT_SECRET" None true;
  refresh_token ← get_env "ZOHO_REFRESH_TOKEN" None true;
  dc ← get_env "ZOHO_DC" (Some "accounts.zoho.in") false;
  let req := token_request refresh_token client_id client_secret dc in
  let on_error (e : exn) : M pyval :=
    print Stderr [Txt "Error getting access token: "; ExnText e];; sys_exit 1 in
  emit (Urlopen req);;
  js ← match urlopen w req with
       | inl e => on_error e
       | inr resp =>
           match json_loads w (body resp) with
           | inl e => on_error e
           | inr js => mret js
           end
       end;
  access_token ← js_get js "access_token";
  if negb (truthy access_token)
  then print Stderr [Txt "Failed to get access token. Response: "; Fmt js];;
       sys_exit 1
  else mret access_token.

Definition ZoneInfo (key : string) : M string :=
  if zone_known w key then mret key else raise (zone_failure w key).

(** [start_hour, start_min = map(int, s.split(":"))] *)
Definition parse_clock (s : string) : M (Z * Z) := unpack2_int (split_colon s).

Definition calc_yesterday_hours : M (string * string) :=
  tz_name ← get_env "ZOHO_TIMEZONE" (Some "Asia/Kolkata") false;
  tz_key ← the_str tz_name;
  tz ← ZoneInfo tz_key;
  let now := now_in w tz in
  yesterday ← pure (minus_one_day now);
  let date_str := strftime_mdY yesterday in
  start_opt ← get_env "ZOHO_TIME_START" (Some "09:30") false;
  end_opt ← get_env "ZOHO_TIME_END" (Some "18:30") false;
  start_str ← the_str start_opt;
  '(start_hour, start_min) ← parse_clock start_str;
  end_str ← the_str end_opt;
  '(end_hour, end_min) ← parse_clock end_str;
  start_dt ← pure (replace_time yesterday start_hour start_min);
  end_dt ← pure (replace_time yesterday end_hour end_min);
  if dt_le end_dt start_dt
  then print Stderr [Txt "End time must be after start time"];; sys_exit 1
  else
    let diff := dt_sub end_dt start_dt in
    let total_minutes := seconds diff / 60 in
    let hours := total_minutes / 60 in
    let minutes := total_minutes mod 60 in
    let hours_str := fmt02d hours +:+ ":" +:+ fmt02d minutes in
    mret (date_str, hours_str).

Definition log_params (date_str hours_str : string)
    (bill_status notes_prefix user_id : option string) : list (string * string) :=
  let params :=
    [("date", date_str);
     ("bill_status", str_of bill_status);
     ("hours", hours_str);
     ("notes", str_of notes_prefix +:+ " - " +:+ date_str)] in
  match user_id with
  | Some u => if negb (String.eqb u EmptyString) then params ++ [("owner", u)] else params
  | None => params
  end.

Definition log_request (access_token : pyval)
    (portal_id project_id task_id : option string)
    (params : list (string * string)) : request :=
  {| url := "https://projectsapi.zoho.com" +:+
            ("/restapi/portal/" +:+ str_of portal_id +:+ "/projects/" +:+
             str_of project_id +:+ "/tasks/" +:+ str_of task_id +:+ "/logs/");
     data := params;
     headers := [("Authorization", [Txt "Zoho-oauthtoken "; Fmt access_token]);
                 ("Content-Type", [Txt "application/x-www-form-urlencoded;charset=UTF-8"])];
     method := "POST" |}.

Definition add_time_log (access_token : pyval) : M unit :=
  portal_id ← get_env "ZOHO_PORTAL_ID" None true;
  project_id ← get_env "ZOHO_PROJECT_ID" None true;
  task_id ← get_env "ZOHO_TASK_ID" None true;
  user_id ← get_env "ZOHO_USER_ID" None false;
  bill_status ← get_env "ZOHO_BILL_STATUS" (Some "Billable") false;
  notes_prefix ← get_env "ZOHO_NOTES_PREFIX" (Some "GitHub auto log") false;
  '(date_str, hours_str) ← calc_yesterday_hours;
  print Stdout [Txt ("Logging time for date=" +:+ date_str +:+ ", hours=" +:+ hours_str)];;
  let params := log_params date_str hours_str bill_status notes_prefix user_id in
  let req := log_request access_token portal_id project_id task_id params in
  emit (Urlopen req);;
  match urlopen w req with
  | inr resp =>
      print Stdout [Txt "Zoho response status:"; Num (status resp)];;
      print Stdout [Txt "Zoho response body:"; Txt (body resp)]
  | inl (HTTPError code reason err_body) =>
      print Stderr [Txt "HTTP Error:"; Num code; Txt reason];;
      text ← decoded err_body;
      print Stderr [Txt text];;
      sys_exit 1
  | inl e =>
      print Stderr [Txt "Error calling Zoho Projects API: "; ExnText e];;
      sys_exit 1
  end.

Definition main : M unit :=
  token ← get_access_token;
  add_time_log token.

End Script.

(** ** The process: exit status and what an observer sees *)

Definition exit_status (r : result unit) : Z :=
  match r with
  | Ret _ => 0
  | SysExit c => c
  | Raise _ => 1
  end.

(** The requests handed to the transport, in order. *)
Definition net_calls (t : list event) : list request :=
  omap (λ e, match e with Urlopen r => Some r | Print _ _ => None end) t.

(** What was written to standard error, in order. *)
Definition stderr_lines (t : list event) : list (list piece) :=
  omap (λ e, match e with Print Stderr m => Some m | _ => None end) t.

Definition run (w : World) : Z * list event :=
  let '(r, t) := main w in (exit_status r, t).

(** A computation that ends the process, with status 1 in every case: by
    [sys.exit(1)] or by an exception nobody catches. *)
Definition aborts {A} (m : M A) : Prop :=
  match fst m with
  | Ret _ => False
  | SysExit c => c = 1
  | Raise _ => True
  end.

(** ** The formats the specification speaks of *)

Definition digit_char (n : Z) : ascii := ascii_of_N (48 + Z.to_N n).

(** A number below 100 as exactly two decimal digits. *)
Definition two_digits (n : Z) : string :=
  String (digit_char (n / 10)) (String (digit_char (n mod 10)) EmptyString).

(** A number below 10000 as exactly four decimal digits. *)
Definition four_digits (n : Z) : string :=
  String (digit_char (n / 1000)) (String (digit_char (n / 100 mod 10))
    (two_digits (n mod 100))).

(** A 24-hour clock string "HH:MM". *)
Definition clock (h m : Z) : string := two_digits h +:+ ":" +:+ two_digits m.

(** A date as "MM-DD-YYYY". *)
Definition mm_dd_yyyy (d : datetime) : string :=
  two_digits (month d) +:+ "-" +:+ two_digits (day d) +:+ "-" +:+
  four_digits (year d).

(** The integers [0 .. n-1], for checks by enumeration. *)
Definition range (n : Z) : list Z := Z.of_nat <$> seq 0 (Z.to_nat n).

(** Reading a clock string gives back its two numbers. *)
Definition parses_back (h m : Z) : bool :=
  match parse_clock (clock h m) with
  | (Ret (h', m'), []) => (h' =? h) && (m' =? m)
  | _ => false
  end.

(** The settings as the script sees them, defaults included. *)
Definition tz_name (w : World) : string :=
  default "Asia/Kolkata" (environ w !! "ZOHO_TIMEZONE").
Definition time_start (w : World) : string :=
  default "09:30" (environ w !! "ZOHO_TIME_START").
Definition time_end (w : World) : string :=
  default "18:30" (environ w !! "ZOHO_TIME_END").

(** ** The two requests, from the settings *)

Definition oauth_settings : list string :=
  ["ZOHO_CLIENT_ID"; "ZOHO_CLIENT_SECRET"; "ZOHO_REFRESH_TOKEN"].
Definition log_settings : list string :=
  ["ZOHO_PORTAL_ID"; "ZOHO_PROJECT_ID"; "ZOHO_TASK_ID"].
(** The settings read with [required=True]; none of them has a default. *)
Definition required_settings : list string := oauth_settings ++ log_settings.

(** A setting is present when it is set to a non-empty value. *)
Definition present (w : World) (name : string) : bool :=
  nonempty (environ w !! name).

(** The token request the script builds. *)
Definition token_req (w : World) : request :=
  token_request (environ w !! "ZOHO_REFRESH_TOKEN") (environ w !! "ZOHO_CLIENT_ID")
    (environ w !! "ZOHO_CLIENT_SECRET")
    (Some (default "accounts.zoho.in" (environ w !! "ZOHO_DC"))).

(** What the token endpoint answers, decoded. *)
Definition token_reply (w : World) : exn + pyval :=
  match urlopen w (token_req w) with
  | inl e => inl e
  | inr resp => json_loads w (body resp)
  end.

Definition bill_status (w : World) : string :=
  default "Billable" (environ w !! "ZOHO_BILL_STATUS").
Definition notes_prefix (w : World) : string :=
  default "GitHub auto log" (environ w !! "ZOHO_NOTES_PREFIX").

(** The submission request the script builds for a token and a window. *)
Definition log_req (w : World) (tok : pyval) (date_str hours_str : string)
  : request :=
  log_request tok (environ w !! "ZOHO_PORTAL_ID") (environ w !! "ZOHO_PROJECT_ID")
    (environ w !! "ZOHO_TASK_ID")
    (log_params date_str hours_str (Some (bill_status w)) (Some (notes_prefix w))
       (environ w !! "ZOHO_USER_ID")).

(** The value of a form field, if the body has it. *)
Definition field (key : string) (params : list (string * string)) : option string :=
  snd <$> List.find (λ kv, String.eqb (fst kv) key) params.

(** The [try]/[except] around the submission: what is printed for each
    answer of the transport, and how the call ends. *)
Definition report (r : exn + response) : M unit :=
  match r with
  | inr resp =>
      print Stdout [Txt "Zoho response status:"; Num (status resp)];;
      print Stdout [Txt "Zoho response body:"; Txt (body resp)]
  | inl (HTTPError code reason err_body) =>
      print Stderr [Txt "HTTP Error:"; Num code; Txt reason];;
      text ← decoded err_body;
      print Stderr [Txt text];;
      sys_exit 1
  | inl e =>
      print Stderr [Txt "Error calling Zoho Projects API: "; ExnText e];;
      sys_exit 1
  end.

Definition logging_line (date_str hours_str : string) : event :=
  Print Stdout [Txt ("Logging time for date=" +:+ date_str +:+ ", hours=" +:+ hours_str)].

(** ** Vocabulary of the specification *)

Definition is_digit (c : ascii) : bool :=
  match digit_val c with Some _ => true | None => false end.

(** A valid 24-hour "HH:MM" string: two digits, a colon, two digits, the
    hour below 24 and the minute below 60. *)
Definition valid_hhmm (s : string) : bool :=
  match s with
  | String a (String b (String c (String d (String e EmptyString)))) =>
      is_digit a && is_digit b && Ascii.eqb c colon && is_digit d && is_digit e &&
      match digit_val a, digit_val b, digit_val d, digit_val e with
      | Some x, Some y, Some u, Some v => (10 * x + y <? 24) && (10 * u + v <? 60)
      | _, _, _, _ => false
      end
  | _ => false
  end.

(** What the script itself accepts as a clock string: exactly two parts
    around one colon that [int] converts, the first within 0..23 and the
    second within 0..59. *)
Definition clock_accepted (s : string) : bool :=
  match parse_clock s with
  | (Ret (h, m), _) => (0 <=? h) && (h <=? 23) && (0 <=? m) && (m <=? 59)
  | _ => false
  end.

(** Text of code points 32..126: no control characters and nothing outside
    ASCII, where [int] has rules of its own for spaces and digits. *)
Fixpoint plain_text (s : string) : bool :=
  match s with
  | EmptyString => true
  | String c s' =>
      let n := N_of_ascii c in (32 <=? n)%N && (n <=? 126)%N && plain_text s'
  end.

(** ** The variant under Scripts/ *)

Module Fixed.
(** [calculate_hours()]: the fixed 09:30-18:30 day. *)
Definition calculate_hours : string := "09:00".
End Fixed.

(** ** Stub worlds for concrete runs *)

Definition env_base : gmap string string :=
  list_to_map [("ZOHO_CLIENT_ID", "id"); ("ZOHO_CLIENT_SECRET", "secret");
               ("ZOHO_REFRESH_TOKEN", "refresh"); ("ZOHO_PORTAL_ID", "p1");
               ("ZOHO_PROJECT_ID", "q2"); ("ZOHO_TASK_ID", "t3")].

Definition token_ok : pyval := PDict {[ "access_token" := PStr "tok" ]}.

(** The stub zone database's errors: ValueError for the empty key,
    ZoneInfoNotFoundError for any other. *)
Definition stub_zone_failure (key : string) : exn :=
  if String.eqb key EmptyString then ValueError_key key
  else ZoneInfoNotFoundError key.

(** A world whose zone database knows Asia/Kolkata, whose clock reads
    2024-03-01 08:15 there, whose transport answers 200 to everything and
    whose token endpoint's body decodes to [js]. *)
Definition stub_world (env : gmap string string) (js : pyval) : World :=
  {| environ := env;
     zone_known := λ k, String.eqb k "Asia/Kolkata";
     zone_failure := stub_zone_failure;
     now_in := λ _, DateTime 2024 3 1 8 15 0 0;
     urlopen := λ _, inr (Response 200 "{}");
     json_loads := λ _, inr js |}.

Definition w_ok : World := stub_world env_base token_ok.
Definition w_reversed : World :=
  stub_world (<["ZOHO_TIME_START" := "18:30"]> (<["ZOHO_TIME_END" := "09:30"]> env_base))
             token_ok.
Definition w_no_portal : World := stub_world (delete "ZOHO_PORTAL_ID" env_base) token_ok.
Definition w_no_secret : World := stub_world (delete "ZOHO_CLIENT_SECRET" env_base) token_ok.
Definition w_loose_clock : World :=
  stub_world (<["ZOHO_TIME_START" := "9:5"]> env_base) token_ok.
Definition w_bad_zone : World :=
  stub_world (<["ZOHO_TIMEZONE" := "Mars/Olympus"]> env_base) token_ok.
Definition w_no_token : World :=
  stub_world env_base (PDict {[ "error" := PStr "invalid_code" ]}).
Definition w_empty_token : World :=
  stub_world env_base (PDict {[ "access_token" := PStr EmptyString ]}).
Definition w_empty_portal : World :=
  stub_world (<["ZOHO_PORTAL_ID" := EmptyString]> env_base) token_ok.
Definition w_empty_user : World :=
  stub_world (<["ZOHO_USER_ID" := EmptyString]> env_base) token_ok.
Definition w_user : World :=
  stub_world (<["ZOHO_USER_ID" := "u77"]> env_base) token_ok.

(** A stub world with a transport of its own. *)
Definition stub_world_net (env : gmap string string) (js : pyval)
    (net : request → exn + response) : World :=
  {| environ := env;
     zone_known := λ k, String.eqb k "Asia/Kolkata";
     zone_failure := stub_zone_failure;
     now_in := λ _, DateTime 2024 3 1 8 15 0 0;
     urlopen := net;
     json_loads := λ _, inr js |}.

(** A transport that answers the token request (the one without headers)
    and fails every other request with [e]. *)
Definition submission_fails (e : exn) (req : request) : exn + response :=
  match headers req with
  | [] => inr (Response 200 "{}")
  | _ :: _ => inl e
  end.

Definition w_token_401 : World :=
  stub_world_net env_base token_ok (λ _, inl (HTTPError 401 "Unauthorized" (Some "denied"))).
Definition w_token_list : World := stub_world env_base (PList [PStr "access_token"]).
Definition w_submit_400 : World :=
  stub_world_net env_base token_ok
    (submission_fails (HTTPError 400 "Bad Request" (Some "invalid date"))).
Definition w_submit_timeout : World :=
  stub_world_net env_base token_ok (submission_fails (TransportError "timed out")).

(** The number of colons in a string. *)
Fixpoint count_colons (s : string) : nat :=
  match s with
  | EmptyString => 0
  | String c s' => (if Ascii.eqb c colon then 1 else 0) + count_colons s'
  end.

(** Whether formatting an hour and a minute gives a valid "HH:MM" string. *)
Definition clock_is_valid (h m : Z) : bool := valid_hhmm (clock h m).

(** A world in another zone, just after midnight on New Year's Day. *)
Definition w_new_year : World :=
  {| environ := <["ZOHO_TIMEZONE" := "Europe/Paris"]> env_base;
     zone_known := λ _, true;
     zone_failure := stub_zone_failure;
     now_in := λ _, DateTime 2025 1 1 0 5 0 0;
     urlopen := λ _, inr (Response 200 "{}");
     json_loads := λ _, inr token_ok |}.


(** ** Scripts/zoho_log_time.py, the earlier variant of the script *)

(** The next calendar day; after 9999-12-31 there is no date. *)
Definition plus_one_day (d : datetime) : result datetime :=
  let at_date y m dd :=
    DateTime y m dd (hour d) (minute d) (second d) (microsecond d) in
  if day d <? days_in_month (year d) (month d)
  then Ret (at_date (year d) (month d) (day d + 1))
  else if month d <? 12 then Ret (at_date (year d) (month d + 1) 1)
  else if year d <? 9999 then Ret (at_date (year d + 1) 1 1)
  else Raise OverflowError.

Definition valid_time (d : datetime) : bool :=
  (0 <=? hour d) && (hour d <=? 23) && (0 <=? minute d) && (minute d <=? 59) &&
  (0 <=? second d) && (second d <=? 59).

(** [d + timedelta(hours=5, minutes=30)] for a datetime with a valid time of
    day: the seconds of the day move on by 19800 and carry into the next day
    at most once. *)
Definition plus_5h30 (d : datetime) : result datetime :=
  let secs := second d + minute d * 60 + hour d * 3600 + 19800 in
  let at_secs (dd : datetime) (s : Z) :=
    DateTime (year dd) (month dd) (day dd)
             (s / 3600) (s mod 3600 / 60) (s mod 60) (microsecond d) in
  if secs <? 86400 then Ret (at_secs d secs)
  else match plus_one_day d with
       | Ret d' => Ret (at_secs d' (secs - 86400))
       | SysExit c => SysExit c
       | Raise e => Raise e
       end.

(** [k in s] for two strings. *)
Fixpoint is_substring (k s : string) : bool :=
  String.prefix k s ||
  match s with
  | EmptyString => false
  | String _ s' => is_substring k s'
  end.

Module Variant.

(** What can end this script besides the exceptions of the transport and of
    the date arithmetic. *)
Inductive failure : Type :=
  | Py (e : exn)
  | TypeError (what : string)
  | KeyError (key : string).

Inductive outcome (A : Type) : Type :=
  | Done (a : A)
  | Exit (code : Z)
  | Uncaught (f : failure).
Arguments Done {A} a.
Arguments Exit {A} code.
Arguments Uncaught {A} f.

Definition V (A : Type) : Type := (outcome A * list event)%type.

Definition vret {A} (a : A) : V A := (Done a, []).
Definition vbind {A B} (k : A → V B) (m : V A) : V B :=
  match m with
  | (Done a, t) => let '(r, t') := k a in (r, t ++ t')
  | (Exit c, t) => (Exit c, t)
  | (Uncaught f, t) => (Uncaught f, t)
  end.
#[global] Instance V_ret : MRet V := @vret.
#[global] Instance V_bind : MBind V := @vbind.

Definition emit (e : event) : V unit := (Done tt, [e]).
Definition sys_exit {A} (code : Z) : V A := (Exit code, []).
Definition raise {A} (f : failure) : V A := (Uncaught f, []).
(** [print(...)], always to standard output here. *)
Definition say (msg : list piece) : V unit := emit (Print Stdout msg).
(** A result of the date arithmetic, as a computation without events. *)
Definition lift {A} (r : result A) : V A :=
  match r with
  | Ret a => (Done a, [])
  | SysExit c => (Exit c, [])
  | Raise e => (Uncaught (Py e), [])
  end.

(** [e.read().decode()] on an HTTP error, inside the [except] clause. *)
Definition decoded (err_body : option string) : V string :=
  match err_body with
  | Some text => mret text
  | None => raise (Py UnicodeDecodeError)
  end.

(** [key in v] *)
Definition contains (v : pyval) (key : string) : V bool :=
  match v with
  | PDict d => mret (bool_decide (is_Some (d !! key)))
  | PList l =>
      mret (existsb (λ x, match x with PStr s => String.eqb s key | _ => false end) l)
  | PStr s => mret (is_substring key s)
  | _ => raise (TypeError "not iterable")
  end.

(** [v[key]] for a string key *)
Definition subscript (v : pyval) (key : string) : V pyval :=
  match v with
  | PDict d =>
      match d !! key with
      | Some x => mret x
      | None => raise (KeyError key)
      end
  | PList _ | PStr _ => raise (TypeError "indices must be integers")
  | _ => raise (TypeError "not subscriptable")
  end.

Definition MISSING : string := "Missing environment variable: ".
Definition DEFAULT_NOTES : string :=
  "POC project implimentation on PLGJ for CORTEX AI".

Section Script.
Variable w : World.
(** [datetime.utcnow()] *)
Variable utcnow : datetime.

Definition get_env (name : string) : V string :=
  match environ w !! name with
  | Some (String c s) => mret (String c s)
  | _ => say [Txt (MISSING +:+ name)];; sys_exit 1
  end.

Definition token_request (dc refresh_token client_id client_secret : string)
  : request :=
  {| url := "https://" +:+ dc +:+ "/oauth/v2/token";
     data := [("refresh_token", refresh_token);
              ("client_id", client_id);
              ("client_secret", client_secret);
              ("grant_type", "refresh_token")];
     headers := [];
     method := "POST" |}.

Definition get_access_token : V pyval :=
  dc ← get_env "ZOHO_DC";
  refresh_token ← get_env "ZOHO_REFRESH_TOKEN";
  client_id ← get_env "ZOHO_CLIENT_ID";
  client_secret ← get_env "ZOHO_CLIENT_SECRET";
  let req := token_request dc refresh_token client_id client_secret in
  let on_error (e : exn) : V pyval :=
    say [Txt "Error while requesting access token:"; ExnText e];; sys_exit 1 in
  emit (Urlopen req);;
  result ← match urlopen w req with
           | inl e => on_error e
           | inr resp =>
               match json_loads w (body resp) with
               | inl e => on_error e
               | inr js => mret js
               end
           end;
  found ← contains result "access_token";
  if negb found
  then say [Txt "Failed to get access token. Response:"; Fmt result];; sys_exit 1
  else subscript result "access_token".

Definition calculate_hours : string := Fixed.calculate_hours.

Definition get_yesterday_date : V string :=
  let tz := default "Asia/Kolkata" (environ w !! "ZOHO_TIMEZONE") in
  now ← lift (plus_5h30 utcnow);
  yesterday ← lift (minus_one_day now);
  mret (strftime_mdY yesterday).

Definition log_request (token : pyval) (portal project_id task_id : string)
    (payload : list (string * string)) : request :=
  {| url := "https://projectsapi.zoho.com/restapi/portal/" +:+ portal +:+
            "/projects/" +:+ project_id +:+ "/tasks/" +:+ task_id +:+ "/logs/";
     data := payload;
     headers := [("Authorization", [Txt "Zoho-oauthtoken "; Fmt token]);
                 ("Content-Type", [Txt "application/x-www-form-urlencoded"])];
     method := "POST" |}.

Definition log_time (token : pyval) : V unit :=
  portal ← get_env "ZOHO_PORTAL_ID";
  project_id ← get_env "ZOHO_PROJECT_ID";
  task_id ← get_env "ZOHO_TASK_ID";
  date ← get_yesterday_date;
  let payload :=
    [("date", date);
     ("hours", calculate_hours);
     ("bill_status", default "Billable" (environ w !! "ZOHO_BILL_STATUS"));
     ("notes", default DEFAULT_NOTES (environ w !! "ZOHO_NOTES_PREFIX"))] in
  let req := log_request token portal project_id task_id payload in
  emit (Urlopen req);;
  match urlopen w req with
  | inr resp => say [Txt "SUCCESS:"; Txt (body resp)]
  | inl (HTTPError code _ err_body) =>
      say [Txt "HTTP ERROR:"; Num code];;
      text ← decoded err_body;
      say [Txt text];;
      sys_exit 1
  | inl e =>
      say [Txt "UNKNOWN ERROR:"; ExnText e];;
      sys_exit 1
  end.

Definition main : V unit :=
  access_token ← get_access_token;
  log_time access_token.

End Script.

Definition exit_status (r : outcome unit) : Z :=
  match r with
  | Done _ => 0
  | Exit c => c
  | Uncaught _ => 1
  end.

Definition run (w : World) (utcnow : datetime) : Z * list event :=
  let '(r, t) := main w utcnow in (exit_status r, t).

End Variant.

(** *** The variant's requests, from the settings *)

(** A setting's value, empty when it is not set. *)
Definition setting (w : World) (name : string) : string :=
  default EmptyString (environ w !! name).

Definition variant_token_settings : list string :=
  ["ZOHO_DC"; "ZOHO_REFRESH_TOKEN"; "ZOHO_CLIENT_ID"; "ZOHO_CLIENT_SECRET"].

Definition variant_token_req (w : World) : request :=
  Variant.token_request (setting w "ZOHO_DC") (setting w "ZOHO_REFRESH_TOKEN")
    (setting w "ZOHO_CLIENT_ID") (setting w "ZOHO_CLIENT_SECRET").

Definition variant_token_reply (w : World) : exn + pyval :=
  match urlopen w (variant_token_req w) with
  | inl e => inl e
  | inr resp => json_loads w (body resp)
  end.

Definition variant_payload (w : World) (date : string) : list (string * string) :=
  [("date", date);
   ("hours", "09:00");
   ("bill_status", bill_status w);
   ("notes", default Variant.DEFAULT_NOTES (environ w !! "ZOHO_NOTES_PREFIX"))].

Definition variant_log_req (w : World) (tok : pyval) (date : string) : request :=
  Variant.log_request tok (setting w "ZOHO_PORTAL_ID") (setting w "ZOHO_PROJECT_ID")
    (setting w "ZOHO_TASK_ID") (variant_payload w date).

(** The variant's [try]/[except] around the submission. *)
Definition variant_report (r : exn + response) : Variant.V unit :=
  match r with
  | inr resp => Variant.say [Txt "SUCCESS:"; Txt (body resp)]
  | inl (HTTPError code _ err_body) =>
      Variant.say [Txt "HTTP ERROR:"; Num code];;
      text ← Variant.decoded err_body;
      Variant.say [Txt text];;
      Variant.sys_exit 1
  | inl e =>
      Variant.say [Txt "UNKNOWN ERROR:"; ExnText e];;
      Variant.sys_exit 1
  end.

(** The variant ends the process, with status 1 in every case. *)
Definition variant_aborts {A} (m : Variant.V A) : Prop :=
  match fst m with
  | Variant.Done _ => False
  | Variant.Exit c => c = 1
  | Variant.Uncaught _ => True
  end.

(** Two datetimes on the same calendar day. *)
Definition same_date (a b : datetime) : Prop :=
  year a = year b ∧ month a = month b ∧ day a = day b.

(** Seconds since midnight. *)
Definition seconds_of_day (d : datetime) : Z :=
  second d + minute d * 60 + hour d * 3600.

(** Worlds for the variant: the data-center host has no default there. *)
Definition env_variant : gmap string string :=
  <["ZOHO_DC" := "accounts.zoho.in"]> env_base.
Definition w_variant : World := stub_world env_variant token_ok.
Definition w_variant_empty_token : World :=
  stub_world env_variant (PDict {[ "access_token" := PStr EmptyString ]}).
Definition w_variant_string : World :=
  stub_world env_variant (PStr "no access_token here").
Definition w_variant_windowed : World :=
  stub_world (<["ZOHO_TIME_START" := "10:00"]> (<["ZOHO_TIME_END" := "12:00"]>
               (<["ZOHO_USER_ID" := "u77"]> env_variant))) token_ok.
(** 2024-02-29 20:00 UTC, which is 2024-03-01 01:30 in India. *)
Definition utc_evening : datetime := DateTime 2024 2 29 20 0 0 0.
(** 2024-03-01 02:45 UTC, which is 2024-03-01 08:15 in India. *)
Definition utc_night : datetime := DateTime 2024 3 1 2 45 0 0.

(** The variant has written nothing to standard error. *)
Definition variant_silent {A} (m : Variant.V A) : Prop :=
  stderr_lines (snd m) = [].

(** Worlds whose window settings the script does not accept. *)
Definition w_empty_zone : World :=
  stub_world (<["ZOHO_TIMEZONE" := EmptyString]> env_base) token_ok.
Definition w_bad_start : World :=
  stub_world (<["ZOHO_TIME_START" := "ab:30"]> env_base) token_ok.
Definition w_bad_end : World :=
  stub_world (<["ZOHO_TIME_END" := "18:60"]> env_base) token_ok.



(** The first setting of a list that is missing or empty. *)
Definition first_missing (w : World) (names : list string) : option string :=
  List.find (λ name, negb (present w name)) names.

Definition w_submit_400_binary : World :=
  stub_world_net env_base token_ok
    (submission_fails (HTTPError 400 "Bad Request" None)).

(** * Properties *)

(** ** Sanity checks of the library models *)

Example py_int_examples :
  py_int "09" = Ret 9 ∧ py_int " 7 " = Ret 7 ∧ py_int "+1_0" = Ret 10 ∧
  py_int "-5" = Ret (-5) ∧ py_int EmptyString = Raise (ValueError_literal EmptyString) ∧
  py_int "1__0" = Raise (ValueError_literal "1__0") ∧
  py_int "_1" = Raise (ValueError_literal "_1") ∧
  py_int "1_" = Raise (ValueError_literal "1_") ∧
  py_int "ab" = Raise (ValueError_literal "ab").
Proof. vm_compute. repeat split. Qed.

Example split_examples :
  split_colon "09:30" = ["09"; "30"] ∧ split_colon EmptyString = [EmptyString] ∧
  split_colon "a::b" = ["a"; EmptyString; "b"] ∧ split_colon "0930" = ["0930"].
Proof. vm_compute. repeat split. Qed.

Example fmt02d_examples :
  fmt02d 0 = "00" ∧ fmt02d 9 = "09" ∧ fmt02d 23 = "23" ∧ fmt02d 123 = "123" ∧
  fmt02d (-3) = "-3".
Proof. vm_compute. repeat split. Qed.

Example strftime_example :
  strftime_mdY (DateTime 2024 3 1 10 0 0 0) = "03-01-2024".
Proof. vm_compute. reflexivity. Qed.

Example minus_one_day_examples :
  minus_one_day (DateTime 2024 3 1 10 5 7 9) = Ret (DateTime 2024 2 29 10 5 7 9) ∧
  minus_one_day (DateTime 2023 3 1 10 5 7 9) = Ret (DateTime 2023 2 28 10 5 7 9) ∧
  minus_one_day (DateTime 2024 1 1 0 0 0 0) = Ret (DateTime 2023 12 31 0 0 0 0) ∧
  minus_one_day (DateTime 1 1 1 0 0 0 0) = Raise OverflowError ∧
  toordinal (DateTime 1970 1 1 0 0 0 0) = 719163.
Proof. vm_compute. repeat split. Qed.

(** ** The monad *)

Lemma bind_Ret {A B} (a : A) (t : list event) (k : A → M B) :
  ((Ret a, t) : M A) ≫= k = (fst (k a), t ++ snd (k a)).
Proof. unfold mbind, M_bind, bind. by destruct (k a). Qed.

Lemma bind_SysExit {A B} (c : Z) (t : list event) (k : A → M B) :
  ((SysExit c, t) : M A) ≫= k = (SysExit c, t).
Proof. reflexivity. Qed.

Lemma bind_Raise {A B} (e : exn) (t : list event) (k : A → M B) :
  ((Raise e, t) : M A) ≫= k = (Raise e, t).
Proof. reflexivity. Qed.

Lemma bind_ext {A B} (m : M A) (k1 k2 : A → M B) :
  (∀ a, k1 a = k2 a) → m ≫= k1 = m ≫= k2.
Proof.
  intros H. destruct m as [[a|c|e] t]; [|reflexivity..].
  by rewrite !bind_Ret, H.
Qed.

Lemma bind_mret {A B} (a : A) (k : A → M B) : mret a ≫= k = k a.
Proof. unfold mret, M_ret, ret. rewrite bind_Ret. by destruct (k a). Qed.

Lemma bind_pure_Ret {A B} (a : A) (k : A → M B) : pure (Ret a) ≫= k = k a.
Proof. apply bind_mret. Qed.

(** A computation that ends the process, with status 1 in every case: by
    [sys.exit(1)] or by an exception nobody catches. *)

Lemma aborts_bind {A B} (m : M A) (k : A → M B) :
  aborts m → aborts (m ≫= k) ∧ snd (m ≫= k) = snd m.
Proof.
  destruct m as [[a|c|e] t]; unfold aborts; simpl; intros H;
    [done | by split | by split].
Qed.

Lemma aborts_status (m : M unit) : aborts m → exit_status (fst m) = 1.
Proof. unfold aborts. by destruct m as [[a|c|e] t]. Qed.

Lemma net_calls_app (t1 t2 : list event) :
  net_calls (t1 ++ t2) = net_calls t1 ++ net_calls t2.
Proof.
  unfold net_calls. induction t1 as [|e t1 IH]; [done|].
  destruct e; cbn; by rewrite ?IH.
Qed.

(** ** Reading the configuration *)


Lemma get_env_optional (w : World) (name : string) (dflt : option string) :
  get_env w name dflt false = mret (getenv w name dflt).
Proof. reflexivity. Qed.

Lemma get_env_required_ok (w : World) (name : string) (dflt : option string) :
  nonempty (getenv w name dflt) = true →
  get_env w name dflt true = mret (getenv w name dflt).
Proof. unfold get_env, nonempty. simpl. by intros ->. Qed.

Lemma get_env_required_missing (w : World) (name : string) (dflt : option string) :
  nonempty (getenv w name dflt) = false →
  get_env w name dflt true = (SysExit 1, [Print Stderr [Txt (MISSING +:+ name)]]).
Proof. unfold get_env, nonempty. simpl. by intros ->. Qed.

Lemma getenv_absent (w : World) (name : string) :
  environ w !! name = None → getenv w name None = None.
Proof. unfold getenv. by intros ->. Qed.

Lemma getenv_empty (w : World) (name : string) (dflt : option string) :
  environ w !! name = Some EmptyString → getenv w name dflt = Some EmptyString.
Proof. unfold getenv. by intros ->. Qed.

(** ** Formatting and parsing two-digit fields *)

Lemma forallb_range (P : Z → bool) (n : Z) :
  forallb P (range n) = true → ∀ z, 0 ≤ z < n → P z = true.
Proof.
  intros H z Hz. rewrite forallb_forall in H. apply H.
  apply list_elem_of_In. unfold range. apply list_elem_of_fmap.
  exists (Z.to_nat z). split; [lia|]. apply elem_of_seq. lia.
Qed.

Lemma fmt02d_two_digits (n : Z) : 0 ≤ n < 100 → fmt02d n = two_digits n.
Proof.
  intros Hn.
  apply String.eqb_eq.
  apply (forallb_range (λ z, String.eqb (fmt02d z) (two_digits z)) 100);
    [by vm_compute | lia].
Qed.

Lemma zfill2_two_digits (n : Z) :
  0 ≤ n < 100 → zfill 2 (pretty n) = two_digits n.
Proof.
  intros Hn.
  apply String.eqb_eq.
  apply (forallb_range (λ z, String.eqb (zfill 2 (pretty z)) (two_digits z)) 100);
    [by vm_compute | lia].
Qed.

Lemma zfill4_four_digits (n : Z) :
  0 ≤ n < 10000 → zfill 4 (pretty n) = four_digits n.
Proof.
  intros Hn.
  apply String.eqb_eq.
  apply (forallb_range (λ z, String.eqb (zfill 4 (pretty z)) (four_digits z)) 10000);
    [by vm_compute | lia].
Qed.

Lemma parse_clock_clock (h m : Z) :
  0 ≤ h < 100 → 0 ≤ m < 100 → parse_clock (clock h m) = (Ret (h, m), []).
Proof.
  intros Hh Hm.
  assert (parses_back h m = true) as H.
  { apply (forallb_range (λ m, parses_back h m) 100); [|lia].
    apply (forallb_range
             (λ h, forallb (λ m, parses_back h m) (range 100)) 100);
      [by vm_compute | lia]. }
  unfold parses_back in H.
  destruct (parse_clock (clock h m)) as [[[h' m']|c|e] [|ev t]]; try done.
  apply andb_prop in H as [->%Z.eqb_eq ->%Z.eqb_eq]. done.
Qed.

(** ** The previous calendar day *)

Lemma days_before_month_step (y m : Z) :
  2 ≤ m → days_before_month y m = days_before_month y (m - 1) + days_in_month y (m - 1).
Proof.
  intros Hm. unfold days_before_month.
  replace (Z.to_nat (m - 1)) with (S (Z.to_nat (m - 1 - 1))) by lia.
  simpl days_before_month_go. f_equal. f_equal. lia.
Qed.

Lemma days_in_month_bounds (y m : Z) : 28 ≤ days_in_month y m ≤ 31.
Proof. unfold days_in_month. repeat case_match; lia. Qed.

Lemma days_in_year (y : Z) :
  days_before_month y 12 + 31 = if is_leap y then 366 else 365.
Proof.
  unfold days_before_month. simpl. unfold days_in_month. simpl.
  destruct (is_leap y); lia.
Qed.

Lemma days_before_year_step (y : Z) :
  days_before_year (y + 1) = days_before_year y + if is_leap y then 366 else 365.
Proof.
  unfold days_before_year, is_leap.
  replace (y + 1 - 1) with y by lia.
  destruct (y mod 4 =? 0) eqn:H4; destruct (y mod 100 =? 0) eqn:H100;
    destruct (y mod 400 =? 0) eqn:H400; simpl;
    rewrite ?Z.eqb_eq, ?Z.eqb_neq in *;
    Z.div_mod_to_equations; lia.
Qed.

(** [minus_one_day] is the predecessor on day numbers, keeps dates valid and
    leaves the time of day alone. *)
Lemma minus_one_day_spec (d y : datetime) :
  valid_date d = true → minus_one_day d = Ret y →
  toordinal y = toordinal d - 1 ∧ valid_date y = true ∧
  (hour y, minute y, second y, microsecond y) =
  (hour d, minute d, second d, microsecond d).
Proof.
  unfold valid_date, minus_one_day. intros Hv Hy.
  repeat (apply andb_prop in Hv as [Hv ?]).
  rewrite ?Z.leb_le in *.
  pose proof (days_in_month_bounds (year d) (month d - 1)).
  repeat case_match; simplify_eq; rewrite ?Z.ltb_lt, ?Z.ltb_ge in *;
    unfold toordinal; simpl.
  - split; [lia|]. split; [|done].
    repeat (apply andb_true_intro; split); rewrite ?Z.leb_le; lia.
  - rewrite (days_before_month_step (year d) (month d)) by lia.
    split; [lia|]. split; [|done].
    repeat (apply andb_true_intro; split); rewrite ?Z.leb_le; lia.
  - replace (month d) with 1 by lia.
    pose proof (days_before_year_step (year d - 1)) as Hs.
    replace (year d - 1 + 1) with (year d) in Hs by lia.
    pose proof (days_in_year (year d - 1)).
    split; [unfold days_before_month at 2; simpl; lia|]. split; [|done].
    repeat (apply andb_true_intro; split); rewrite ?Z.leb_le; try lia.
    by vm_compute.
Qed.

Lemma minus_one_day_Ret (d : datetime) :
  valid_date d = true → (year d, month d, day d) ≠ (1, 1, 1) →
  ∃ y, minus_one_day d = Ret y.
Proof.
  unfold valid_date, minus_one_day. intros Hv Hne.
  repeat (apply andb_prop in Hv as [Hv ?]). rewrite ?Z.leb_le in *.
  repeat case_match; eauto. rewrite ?Z.ltb_ge in *.
  destruct Hne. f_equal; [f_equal|]; lia.
Qed.

(** ** The time window *)

Lemma bind_Ret_nil {A B} (a : A) (k : A → M B) : ((Ret a, []) : M A) ≫= k = k a.
Proof. apply bind_mret. Qed.

Lemma getenv_default (w : World) (name dflt : string) :
  getenv w name (Some dflt) = Some (default dflt (environ w !! name)).
Proof. unfold getenv. by destruct (environ w !! name). Qed.

(** The window computation with the configuration reads resolved. *)
Lemma calc_yesterday_hours_eq (w : World) :
  calc_yesterday_hours w =
    (tz ← ZoneInfo w (tz_name w);
     yesterday ← pure (minus_one_day (now_in w tz));
     '(start_hour, start_min) ← parse_clock (time_start w);
     '(end_hour, end_min) ← parse_clock (time_end w);
     start_dt ← pure (replace_time yesterday start_hour start_min);
     end_dt ← pure (replace_time yesterday end_hour end_min);
     if dt_le end_dt start_dt
     then print Stderr [Txt "End time must be after start time"];; sys_exit 1
     else
       let total_minutes := seconds (dt_sub end_dt start_dt) / 60 in
       mret (strftime_mdY yesterday,
             fmt02d (total_minutes / 60) +:+ ":" +:+ fmt02d (total_minutes mod 60))).
Proof.
  unfold calc_yesterday_hours.
  rewrite !get_env_optional, !getenv_default, bind_mret.
  fold (tz_name w) (time_start w) (time_end w).
  change (the_str (Some (tz_name w))) with (mret (M := M) (tz_name w)).
  rewrite bind_mret.
  apply bind_ext; intros tz. apply bind_ext; intros y.
  rewrite !bind_mret.
  change (the_str (Some (time_start w))) with (mret (M := M) (time_start w)).
  rewrite bind_mret.
  apply bind_ext; intros [sh sm].
  change (the_str (Some (time_end w))) with (mret (M := M) (time_end w)).
  by rewrite bind_mret.
Qed.

Lemma replace_time_ok (y : datetime) (h m : Z) :
  0 ≤ h < 24 → 0 ≤ m < 60 →
  replace_time y h m = Ret (DateTime (year y) (month y) (day y) h m 0 0).
Proof.
  intros Hh Hm. unfold replace_time.
  replace ((0 <=? h) && (h <=? 23)) with true by (symmetry; apply andb_true_intro; lia).
  replace ((0 <=? m) && (m <=? 59)) with true by (symmetry; apply andb_true_intro; lia).
  reflexivity.
Qed.

(** On one calendar day, comparing datetimes compares minutes of the day. *)
Lemma dt_le_same_day (Y Mo D sh sm eh em : Z) :
  0 ≤ sm < 60 → 0 ≤ em < 60 →
  dt_le (DateTime Y Mo D eh em 0 0) (DateTime Y Mo D sh sm 0 0)
  = (eh * 60 + em <=? sh * 60 + sm).
Proof.
  intros Hs He. unfold dt_le, fields. simpl.
  rewrite !Z.ltb_irrefl, !Z.eqb_refl. simpl.
  destruct (eh <? sh) eqn:H1, (eh =? sh) eqn:H2, (em <? sm) eqn:H3,
    (em =? sm) eqn:H4, (eh * 60 + em <=? sh * 60 + sm) eqn:H5; simpl;
    rewrite ?Z.ltb_lt, ?Z.ltb_ge, ?Z.eqb_eq, ?Z.eqb_neq, ?Z.leb_le, ?Z.leb_gt in *;
    first [reflexivity | lia].
Qed.

(** On one calendar day, the difference counts the minutes between. *)
Lemma dt_sub_same_day (Y Mo D sh sm eh em : Z) :
  0 ≤ (eh * 60 + em) - (sh * 60 + sm) < 1440 →
  seconds (dt_sub (DateTime Y Mo D eh em 0 0) (DateTime Y Mo D sh sm 0 0)) / 60
  = (eh * 60 + em) - (sh * 60 + sm).
Proof.
  intros H. unfold dt_sub, mk_timedelta. simpl.
  change (0 `div` 1000000) with 0.
  Z.div_mod_to_equations. lia.
Qed.

(** The window computation once zone, date and both clock strings are
    accepted: one comparison decides between the abort and the result. *)
Lemma calc_parsed (w : World) (y : datetime) (sh sm eh em : Z) :
  zone_known w (tz_name w) = true →
  minus_one_day (now_in w (tz_name w)) = Ret y →
  parse_clock (time_start w) = (Ret (sh, sm), []) →
  parse_clock (time_end w) = (Ret (eh, em), []) →
  0 ≤ sh < 24 → 0 ≤ sm < 60 → 0 ≤ eh < 24 → 0 ≤ em < 60 →
  calc_yesterday_hours w =
    if eh * 60 + em <=? sh * 60 + sm
    then (SysExit 1, [Print Stderr [Txt "End time must be after start time"]])
    else
      let δ := (eh * 60 + em) - (sh * 60 + sm) in
      (Ret (strftime_mdY y, fmt02d (δ / 60) +:+ ":" +:+ fmt02d (δ mod 60)), []).
Proof.
  intros Hz Hy Hs He Hsh Hsm Heh Hem.
  rewrite calc_yesterday_hours_eq. unfold ZoneInfo.
  rewrite Hz, bind_mret, Hy, bind_pure_Ret, Hs, bind_Ret_nil, He, bind_Ret_nil.
  rewrite !replace_time_ok, !bind_pure_Ret by done.
  rewrite dt_le_same_day by done.
  destruct (eh * 60 + em <=? sh * 60 + sm) eqn:Hle; [reflexivity|].
  apply Z.leb_gt in Hle.
  rewrite dt_sub_same_day by lia. reflexivity.
Qed.

Lemma strftime_mm_dd_yyyy (d : datetime) :
  valid_date d = true → strftime_mdY d = mm_dd_yyyy d.
Proof.
  unfold valid_date. intros Hv.
  repeat (apply andb_prop in Hv as [Hv ?]). rewrite ?Z.leb_le in *.
  pose proof (days_in_month_bounds (year d) (month d)).
  unfold strftime_mdY, mm_dd_yyyy.
  by rewrite !zfill2_two_digits, zfill4_four_digits by lia.
Qed.

(** ** Token acquisition *)

Lemma getenv_None (w : World) (name : string) :
  getenv w name None = environ w !! name.
Proof. unfold getenv. by destruct (environ w !! name). Qed.

Lemma get_env_required (w : World) (name : string) :
  get_env w name None true =
    if present w name then mret (environ w !! name)
    else (SysExit 1, [Print Stderr [Txt (MISSING +:+ name)]]).
Proof.
  unfold present. rewrite <- (getenv_None w name).
  destruct (nonempty (getenv w name None)) eqn:H.
  - by apply get_env_required_ok.
  - by apply get_env_required_missing.
Qed.

(** Token acquisition with the configuration reads resolved. *)
Lemma get_access_token_eq (w : World) :
  present w "ZOHO_CLIENT_ID" = true →
  present w "ZOHO_CLIENT_SECRET" = true →
  present w "ZOHO_REFRESH_TOKEN" = true →
  get_access_token w =
    (emit (Urlopen (token_req w));;
     match token_reply w with
     | inl e => print Stderr [Txt "Error getting access token: "; ExnText e];;
                sys_exit 1
     | inr js =>
         access_token ← js_get js "access_token";
         if negb (truthy access_token)
         then print Stderr [Txt "Failed to get access token. Response: "; Fmt js];;
              sys_exit 1
         else mret access_token
     end).
Proof.
  intros H1 H2 H3. unfold get_access_token.
  rewrite !get_env_required, H1, H2, H3, get_env_optional, getenv_default.
  rewrite !bind_mret. fold (token_req w).
  apply bind_ext; intros _. unfold token_reply.
  destruct (urlopen w (token_req w)) as [e|resp]; [reflexivity|].
  destruct (json_loads w (body resp)) as [e|js]; [reflexivity|].
  by rewrite bind_mret.
Qed.

(** With a required OAuth setting missing, the script stops at the first
    such setting and has done nothing else. *)
Lemma get_access_token_missing (w : World) :
  present w "ZOHO_CLIENT_ID" && present w "ZOHO_CLIENT_SECRET" &&
    present w "ZOHO_REFRESH_TOKEN" = false →
  ∃ name, name ∈ oauth_settings ∧ present w name = false ∧
    get_access_token w = (SysExit 1, [Print Stderr [Txt (MISSING +:+ name)]]).
Proof.
  intros H. unfold get_access_token. rewrite !get_env_required.
  destruct (present w "ZOHO_CLIENT_ID") eqn:H1.
  2:{ exists "ZOHO_CLIENT_ID". split; [set_solver|done]. }
  rewrite bind_mret.
  destruct (present w "ZOHO_CLIENT_SECRET") eqn:H2.
  2:{ exists "ZOHO_CLIENT_SECRET". split; [set_solver|done]. }
  rewrite bind_mret.
  destruct (present w "ZOHO_REFRESH_TOKEN") eqn:H3; [done|].
  exists "ZOHO_REFRESH_TOKEN". split; [set_solver|done].
Qed.

(** Every run of the token stage: either it returns a truthy token after
    exactly one network call, or the process ends there with at most that
    call made. *)
Lemma get_access_token_cases (w : World) :
  (∃ tok, get_access_token w = (Ret tok, [Urlopen (token_req w)]) ∧
          truthy tok = true ∧
          present w "ZOHO_CLIENT_ID" && present w "ZOHO_CLIENT_SECRET" &&
            present w "ZOHO_REFRESH_TOKEN" = true)
  ∨ (aborts (get_access_token w) ∧
     (net_calls (snd (get_access_token w)) = [] ∨
      net_calls (snd (get_access_token w)) = [token_req w])).
Proof.
  destruct (present w "ZOHO_CLIENT_ID" && present w "ZOHO_CLIENT_SECRET" &&
            present w "ZOHO_REFRESH_TOKEN") eqn:Hp.
  - pose proof Hp as Hp'.
    apply andb_prop in Hp as [[H1 H2]%andb_prop H3].
    rewrite get_access_token_eq by done.
    destruct (token_reply w) as [e|js]; [right; split; [reflexivity | by right]|].
    destruct js as [| | | | | |d];
      try (right; split; [exact I | by right]).
    unfold js_get. rewrite bind_mret.
    destruct (truthy (default PNone (d !! "access_token"))) eqn:Ht.
    + left. eexists. split; [reflexivity|]. by split.
    + right. split; [reflexivity | by right].
  - destruct (get_access_token_missing w Hp) as (name & _ & _ & ->).
    right. split; [reflexivity | by left].
Qed.

(** ** The window computation never touches the network *)

Lemma parse_clock_events (s : string) : snd (parse_clock s) = [].
Proof.
  unfold parse_clock, unpack2_int.
  destruct (split_colon s) as [|a [|b [|c l]]]; [done|..];
    destruct (py_int a); try done;
    destruct (py_int b); try done;
    destruct (py_int c); done.
Qed.

(** Closes the branch of a case analysis in which the process ended without
    a network call. *)
Ltac stops := right; split; [first [exact I | reflexivity] | reflexivity].

Lemma py_int_no_exit (s : string) (c : Z) : py_int s ≠ SysExit c.
Proof. unfold py_int. by repeat case_match. Qed.

Lemma pure_bind_no_exit {A B} (r : result A) (k : A → M B) (c : Z) (t : list event) :
  (∀ c', r ≠ SysExit c') → (∀ a, k a ≠ (SysExit c, t)) →
  pure r ≫= k ≠ (SysExit c, t).
Proof.
  intros Hr Hk. destruct r as [a|c'|e].
  - rewrite bind_pure_Ret. apply Hk.
  - by destruct (Hr c').
  - done.
Qed.

Lemma parse_clock_no_exit (s : string) (c : Z) (t : list event) :
  parse_clock s ≠ (SysExit c, t).
Proof.
  unfold parse_clock, unpack2_int.
  destruct (split_colon s) as [|a [|b [|x l]]]; [done|..];
    repeat (apply pure_bind_no_exit; [apply py_int_no_exit | intros ?]); done.
Qed.

Lemma minus_one_day_no_exit (d : datetime) (c : Z) : minus_one_day d ≠ SysExit c.
Proof. unfold minus_one_day. by repeat case_match. Qed.

Lemma replace_time_no_exit (d : datetime) (h m c : Z) :
  replace_time d h m ≠ SysExit c.
Proof. unfold replace_time. by repeat case_match. Qed.

Lemma calc_yesterday_hours_cases (w : World) :
  (∃ v, calc_yesterday_hours w = (Ret v, []))
  ∨ (aborts (calc_yesterday_hours w) ∧
     net_calls (snd (calc_yesterday_hours w)) = []).
Proof.
  rewrite calc_yesterday_hours_eq. unfold ZoneInfo.
  destruct (zone_known w (tz_name w)); [rewrite bind_mret | stops].
  destruct (minus_one_day _) as [y|c|e] eqn:Hy;
    [rewrite bind_pure_Ret | by destruct (minus_one_day_no_exit _ _ Hy) | stops].
  pose proof (parse_clock_events (time_start w)) as Hs.
  destruct (parse_clock (time_start w)) as [[[sh sm]|c|e] ts] eqn:Hps;
    simpl in Hs; subst ts;
    [rewrite bind_Ret_nil | by destruct (parse_clock_no_exit _ _ _ Hps) | stops].
  pose proof (parse_clock_events (time_end w)) as He.
  destruct (parse_clock (time_end w)) as [[[eh em]|c|e] te] eqn:Hpe;
    simpl in He; subst te;
    [rewrite bind_Ret_nil | by destruct (parse_clock_no_exit _ _ _ Hpe) | stops].
  destruct (replace_time y sh sm) as [sd|c|e] eqn:Hrs;
    [rewrite bind_pure_Ret | by destruct (replace_time_no_exit _ _ _ _ Hrs) | stops].
  destruct (replace_time y eh em) as [ed|c|e] eqn:Hre;
    [rewrite bind_pure_Ret | by destruct (replace_time_no_exit _ _ _ _ Hre) | stops].
  destruct (dt_le ed sd); [stops | left; eauto].
Qed.

(** ** Submission *)

Lemma report_cases (r : exn + response) :
  net_calls (snd (report r)) = [] ∧
  (fst (report r) = Ret tt ∧ (∃ resp, r = inr resp) ∨ aborts (report r)).
Proof.
  destruct r as [e|resp]; [|split; [done | left; eauto]].
  destruct e; try (match goal with b : option string |- _ => destruct b end);
    split; try done; by right.
Qed.

(** Submission with the configuration reads resolved. *)
Lemma add_time_log_eq (w : World) (tok : pyval) :
  present w "ZOHO_PORTAL_ID" = true →
  present w "ZOHO_PROJECT_ID" = true →
  present w "ZOHO_TASK_ID" = true →
  add_time_log w tok =
    ('(date_str, hours_str) ← calc_yesterday_hours w;
     emit (logging_line date_str hours_str);;
     emit (Urlopen (log_req w tok date_str hours_str));;
     report (urlopen w (log_req w tok date_str hours_str))).
Proof.
  intros H1 H2 H3. unfold add_time_log.
  rewrite !get_env_required, H1, H2, H3, !get_env_optional, !getenv_default,
    getenv_None.
  rewrite !bind_mret. fold (bill_status w) (notes_prefix w).
  apply bind_ext; intros [d h]. fold (log_req w tok d h).
  apply bind_ext; intros _. apply bind_ext; intros _.
  unfold report. by destruct (urlopen w (log_req w tok d h)) as [[]|].
Qed.

Lemma add_time_log_missing (w : World) (tok : pyval) :
  present w "ZOHO_PORTAL_ID" && present w "ZOHO_PROJECT_ID" &&
    present w "ZOHO_TASK_ID" = false →
  ∃ name, name ∈ log_settings ∧ present w name = false ∧
    add_time_log w tok = (SysExit 1, [Print Stderr [Txt (MISSING +:+ name)]]).
Proof.
  intros H. unfold add_time_log. rewrite !get_env_required.
  destruct (present w "ZOHO_PORTAL_ID") eqn:H1.
  2:{ exists "ZOHO_PORTAL_ID". split; [set_solver|done]. }
  rewrite bind_mret.
  destruct (present w "ZOHO_PROJECT_ID") eqn:H2.
  2:{ exists "ZOHO_PROJECT_ID". split; [set_solver|done]. }
  rewrite bind_mret.
  destruct (present w "ZOHO_TASK_ID") eqn:H3; [done|].
  exists "ZOHO_TASK_ID". split; [set_solver|done].
Qed.

(** Every run of the submission stage: either the window was computed and
    exactly one request was sent, or the process ended before any request. *)
Lemma add_time_log_cases (w : World) (tok : pyval) :
  (∃ d h, calc_yesterday_hours w = (Ret (d, h), []) ∧
          present w "ZOHO_PORTAL_ID" && present w "ZOHO_PROJECT_ID" &&
            present w "ZOHO_TASK_ID" = true ∧
          add_time_log w tok =
            (fst (report (urlopen w (log_req w tok d h))),
             [logging_line d h; Urlopen (log_req w tok d h)] ++
             snd (report (urlopen w (log_req w tok d h)))))
  ∨ (aborts (add_time_log w tok) ∧ net_calls (snd (add_time_log w tok)) = []).
Proof.
  destruct (present w "ZOHO_PORTAL_ID" && present w "ZOHO_PROJECT_ID" &&
            present w "ZOHO_TASK_ID") eqn:Hp.
  - pose proof Hp as Hp'. apply andb_prop in Hp as [[H1 H2]%andb_prop H3].
    rewrite add_time_log_eq by done.
    destruct (calc_yesterday_hours_cases w) as [[[d h] Hc]|[Ha Hn]].
    + left. exists d, h. rewrite Hc, bind_Ret_nil. split; [done|]. split; [done|].
      unfold emit. rewrite !bind_Ret. reflexivity.
    + right. by destruct (aborts_bind (calc_yesterday_hours w)
        (λ '(date_str, hours_str),
           emit (logging_line date_str hours_str);;
           emit (Urlopen (log_req w tok date_str hours_str));;
           report (urlopen w (log_req w tok date_str hours_str))) Ha) as [? ->].
  - destruct (add_time_log_missing w tok Hp) as (name & _ & _ & ->). stops.
Qed.

(** ** The whole run *)

Lemma run_fst (w : World) : fst (run w) = exit_status (fst (main w)).
Proof. unfold run. by destruct (main w). Qed.

Lemma run_snd (w : World) : snd (run w) = snd (main w).
Proof. unfold run. by destruct (main w). Qed.

Lemma run_eq (w : World) (r : result unit) (t : list event) :
  main w = (r, t) → run w = (exit_status r, t).
Proof. unfold run. by intros ->. Qed.

(** Every run: either both stages went through to the submission, with
    exactly the two requests sent, or the process ended with status 1 after at
    most the token request. *)
Lemma main_cases (w : World) :
  (∃ tok d h,
      get_access_token w = (Ret tok, [Urlopen (token_req w)]) ∧
      truthy tok = true ∧
      calc_yesterday_hours w = (Ret (d, h), []) ∧
      (∀ name, name ∈ required_settings → present w name = true) ∧
      main w =
        (fst (report (urlopen w (log_req w tok d h))),
         [Urlopen (token_req w); logging_line d h; Urlopen (log_req w tok d h)] ++
         snd (report (urlopen w (log_req w tok d h)))))
  ∨ (aborts (main w) ∧
     (net_calls (snd (main w)) = [] ∨ net_calls (snd (main w)) = [token_req w])).
Proof.
  unfold main.
  destruct (get_access_token_cases w) as [(tok & Ht & Htruthy & Hp)|[Ha Hn]].
  - rewrite Ht, bind_Ret.
    destruct (add_time_log_cases w tok) as [(d & h & Hc & Hp' & Hl)|[Ha Hn]].
    + left. exists tok, d, h. rewrite Hl. simpl. do 3 (split; [done|]).
      split; [|done].
      apply andb_prop in Hp as [[? ?]%andb_prop ?].
      apply andb_prop in Hp' as [[? ?]%andb_prop ?].
      intros name Hin. unfold required_settings, oauth_settings, log_settings in Hin.
      set_unfold in Hin. destruct_or!; by subst.
    + right. split.
      * unfold aborts in *. simpl. apply Ha.
      * right. cbn [snd]. rewrite (net_calls_app [_]), Hn. done.
  - right. by destruct (aborts_bind (get_access_token w)
                         (λ token, add_time_log w token) Ha) as [? ->].
Qed.

(** A run with a required setting missing or empty: status 1, and at most the
    token request on the network; none at all when the setting is one of the
    three the token stage reads. *)
Lemma run_not_present (w : World) (name : string) :
  name ∈ required_settings → present w name = false →
  fst (run w) = 1 ∧
  (net_calls (snd (run w)) = [] ∨ net_calls (snd (run w)) = [token_req w]) ∧
  (name ∈ oauth_settings → net_calls (snd (run w)) = []).
Proof.
  intros Hin Hp. rewrite run_fst, run_snd.
  destruct (main_cases w) as [(tok & d & h & _ & _ & _ & Hall & _)|[Ha Hn]].
  { specialize (Hall name Hin). congruence. }
  split; [by apply aborts_status|]. split; [done|].
  intros Ho.
  assert (present w "ZOHO_CLIENT_ID" && present w "ZOHO_CLIENT_SECRET" &&
          present w "ZOHO_REFRESH_TOKEN" = false) as Hm.
  { unfold oauth_settings in Ho. set_unfold in Ho.
    destruct Ho as [->|[->|[->|[]]]]; rewrite Hp;
      by rewrite ?andb_false_r, ?andb_false_l. }
  destruct (get_access_token_missing w Hm) as (n & _ & _ & Hg).
  unfold main. by rewrite Hg.
Qed.

(** * The specification, statement by statement *)

(** C1. For every valid pair of clock strings "HH:MM" with the end strictly
    after the start, in a recognised zone whose current date is valid, the
    window computation returns, without any event, the duration (end minus
    start in minutes) as zero-padded hours:minutes and the date of the day
    before the zone's current date as zero-padded MM-DD-YYYY. *)
Theorem compute_window_valid (w : World) (sh sm eh em : Z) (y : datetime) :
  0 ≤ sh < 24 → 0 ≤ sm < 60 → 0 ≤ eh < 24 → 0 ≤ em < 60 →
  time_start w = clock sh sm → time_end w = clock eh em →
  sh * 60 + sm < eh * 60 + em →
  zone_known w (tz_name w) = true →
  valid_date (now_in w (tz_name w)) = true →
  minus_one_day (now_in w (tz_name w)) = Ret y →
  let δ := (eh * 60 + em) - (sh * 60 + sm) in
  calc_yesterday_hours w = (Ret (mm_dd_yyyy y, clock (δ / 60) (δ mod 60)), []) ∧
  toordinal y = toordinal (now_in w (tz_name w)) - 1 ∧
  valid_date y = true.
Proof.
  intros Hsh Hsm Heh Hem Hs He Hlt Hz Hv Hy δ.
  destruct (minus_one_day_spec _ _ Hv Hy) as (Hord & Hvy & _).
  split; [|done].
  rewrite (calc_parsed w y sh sm eh em); try done.
  - replace (eh * 60 + em <=? sh * 60 + sm) with false by (symmetry; lia).
    cbv zeta. fold δ.
    assert (0 ≤ δ / 60 < 100 ∧ 0 ≤ δ mod 60 < 100) as [? ?].
    { unfold δ. Z.div_mod_to_equations. lia. }
    rewrite !fmt02d_two_digits, strftime_mm_dd_yyyy by done.
    reflexivity.
  - rewrite Hs. apply parse_clock_clock; lia.
  - rewrite He. apply parse_clock_clock; lia.
Qed.

Lemma compute_window_valid_witness :
  calc_yesterday_hours w_ok = (Ret ("02-29-2024", "09:00"), []) ∧
  toordinal (DateTime 2024 2 29 8 15 0 0) = toordinal (DateTime 2024 3 1 8 15 0 0) - 1.
Proof.
  destruct (compute_window_valid w_ok 9 30 18 30 (DateTime 2024 2 29 8 15 0 0))
    as (H1 & H2 & _);
    [lia | lia | lia | lia | reflexivity | reflexivity | lia | reflexivity
    | reflexivity | reflexivity |].
  split; [exact H1 | exact H2].
Defined.

(** With an end that is not after the start, the window computation never
    returns: it ends the process without any network call of its own. *)
Lemma calc_rejects (w : World) (sh sm eh em : Z) :
  0 ≤ sh < 24 → 0 ≤ sm < 60 → 0 ≤ eh < 24 → 0 ≤ em < 60 →
  time_start w = clock sh sm → time_end w = clock eh em →
  eh * 60 + em ≤ sh * 60 + sm →
  aborts (calc_yesterday_hours w) ∧ net_calls (snd (calc_yesterday_hours w)) = [] ∧
  (zone_known w (tz_name w) = true →
   (∃ y, minus_one_day (now_in w (tz_name w)) = Ret y) →
   calc_yesterday_hours w =
     (SysExit 1, [Print Stderr [Txt "End time must be after start time"]])).
Proof.
  intros Hsh Hsm Heh Hem Hs He Hle.
  assert (zone_known w (tz_name w) = true →
          (∃ y, minus_one_day (now_in w (tz_name w)) = Ret y) →
          calc_yesterday_hours w =
            (SysExit 1, [Print Stderr [Txt "End time must be after start time"]]))
    as Hmain.
  { intros Hz [y Hy]. rewrite (calc_parsed w y sh sm eh em); try done.
    - by replace (eh * 60 + em <=? sh * 60 + sm) with true by (symmetry; lia).
    - rewrite Hs. apply parse_clock_clock; lia.
    - rewrite He. apply parse_clock_clock; lia. }
  split; [|split; [|done]].
  - destruct (zone_known w (tz_name w)) eqn:Hz.
    + destruct (minus_one_day (now_in w (tz_name w))) as [y|c|e] eqn:Hy.
      * by rewrite Hmain by eauto.
      * by destruct (minus_one_day_no_exit _ _ Hy).
      * rewrite calc_yesterday_hours_eq. unfold ZoneInfo.
        by rewrite Hz, bind_mret, Hy.
    + rewrite calc_yesterday_hours_eq. unfold ZoneInfo. by rewrite Hz.
  - destruct (calc_yesterday_hours_cases w) as [[v Hv]|[_ Hn]]; [|done].
    by rewrite Hv.
Qed.

(** C2, as the code has it.  For every valid pair of clock strings whose end
    is not strictly after its start, the process ends with status 1 and the
    submission request is never sent.  The window is checked after the token
    exchange: the window computation makes no network call itself, but
    whenever the token stage returned, the token request has been sent. *)
Theorem window_rejected (w : World) (sh sm eh em : Z) :
  0 ≤ sh < 24 → 0 ≤ sm < 60 → 0 ≤ eh < 24 → 0 ≤ em < 60 →
  time_start w = clock sh sm → time_end w = clock eh em →
  eh * 60 + em ≤ sh * 60 + sm →
  fst (run w) = 1 ∧
  (net_calls (snd (run w)) = [] ∨ net_calls (snd (run w)) = [token_req w]) ∧
  (aborts (calc_yesterday_hours w) ∧ net_calls (snd (calc_yesterday_hours w)) = []) ∧
  (∀ tok t, get_access_token w = (Ret tok, t) →
            net_calls (snd (run w)) = [token_req w]).
Proof.
  intros Hsh Hsm Heh Hem Hs He Hle.
  destruct (calc_rejects w sh sm eh em) as (Ha & Hn & _); try done.
  rewrite run_fst, run_snd.
  destruct (main_cases w) as [(tok & d & h & _ & _ & Hc & _)|[Hab Hnet]].
  { rewrite Hc in Ha. destruct Ha. }
  split; [by apply aborts_status|]. split; [done|]. split; [done|].
  intros tok t Ht.
  destruct (get_access_token_cases w) as [(tok' & Ht' & _)|[Hat _]].
  - unfold main. rewrite Ht', bind_Ret. cbn [snd].
    destruct (add_time_log_cases w tok') as [(d & h & Hc & _)|[_ Hq]].
    + rewrite Hc in Ha. destruct Ha.
    + by rewrite (net_calls_app [_]), Hq.
  - rewrite Ht in Hat. destruct Hat.
Qed.

Lemma window_rejected_witness :
  fst (run w_reversed) = 1 ∧
  (net_calls (snd (run w_reversed)) = [] ∨
   net_calls (snd (run w_reversed)) = [token_req w_reversed]).
Proof.
  destruct (window_rejected w_reversed 18 30 9 30) as (H1 & H2 & _);
    [lia | lia | lia | lia | reflexivity | reflexivity | lia |].
  split; [exact H1 | exact H2].
Defined.

(** C2 as stated fails: with the end before the start, the token request
    has gone out before the window is rejected. *)
Lemma reversed_window_after_token_call :
  time_start w_reversed = clock 18 30 ∧ time_end w_reversed = clock 9 30 ∧
  run w_reversed =
    (1, [Urlopen (token_req w_reversed);
         Print Stderr [Txt "End time must be after start time"]]) ∧
  net_calls (snd (run w_reversed)) ≠ [].
Proof. vm_compute. repeat split; discriminate. Qed.

(** The token stage when the answer is a JSON object whose access-token
    entry is missing or falsy: the response is logged and the process exits. *)
Lemma token_refused (w : World) (d : gmap string pyval) :
  present w "ZOHO_CLIENT_ID" = true →
  present w "ZOHO_CLIENT_SECRET" = true →
  present w "ZOHO_REFRESH_TOKEN" = true →
  token_reply w = inr (PDict d) →
  truthy (default PNone (d !! "access_token")) = false →
  run w =
    (1, [Urlopen (token_req w);
         Print Stderr [Txt "Failed to get access token. Response: "; Fmt (PDict d)]]).
Proof.
  intros H1 H2 H3 Hr Ht. apply (run_eq w (SysExit 1)).
  unfold main. rewrite get_access_token_eq, Hr by done.
  unfold js_get. by rewrite bind_mret, Ht.
Qed.

(** C3. Whenever the token endpoint's answer decodes to a JSON object
    without an access-token field, the run consists of the token request and
    one line on standard error carrying the whole decoded response, and ends
    with status 1: the submission request is never sent. *)
Theorem token_field_missing (w : World) (d : gmap string pyval) :
  present w "ZOHO_CLIENT_ID" = true →
  present w "ZOHO_CLIENT_SECRET" = true →
  present w "ZOHO_REFRESH_TOKEN" = true →
  token_reply w = inr (PDict d) →
  d !! "access_token" = None →
  run w =
    (1, [Urlopen (token_req w);
         Print Stderr [Txt "Failed to get access token. Response: "; Fmt (PDict d)]]) ∧
  net_calls (snd (run w)) = [token_req w] ∧
  stderr_lines (snd (run w)) =
    [[Txt "Failed to get access token. Response: "; Fmt (PDict d)]].
Proof.
  intros H1 H2 H3 Hr Hd.
  rewrite (token_refused w d) by (try done; by rewrite Hd).
  done.
Qed.

Lemma token_field_missing_witness :
  run w_no_token =
    (1, [Urlopen (token_req w_no_token);
         Print Stderr [Txt "Failed to get access token. Response: ";
                       Fmt (PDict {[ "error" := PStr "invalid_code" ]})]]).
Proof.
  exact (proj1 (token_field_missing w_no_token {[ "error" := PStr "invalid_code" ]}
                  eq_refl eq_refl eq_refl eq_refl eq_refl)).
Defined.

(** C9. Whenever the decoded answer has an access-token field whose value is
    falsy (the empty string, null, false, zero, an empty list or object), the
    token stage does not return it: the response is logged on standard error
    and the process exits with status 1 after the token request alone. *)
Theorem token_field_falsy (w : World) (d : gmap string pyval) (v : pyval) :
  present w "ZOHO_CLIENT_ID" = true →
  present w "ZOHO_CLIENT_SECRET" = true →
  present w "ZOHO_REFRESH_TOKEN" = true →
  token_reply w = inr (PDict d) →
  d !! "access_token" = Some v →
  truthy v = false →
  get_access_token w =
    (SysExit 1,
     [Urlopen (token_req w);
      Print Stderr [Txt "Failed to get access token. Response: "; Fmt (PDict d)]]) ∧
  fst (run w) = 1 ∧
  net_calls (snd (run w)) = [token_req w].
Proof.
  intros H1 H2 H3 Hr Hd Hv.
  assert (truthy (default PNone (d !! "access_token")) = false) as Hf
    by (by rewrite Hd).
  rewrite (token_refused w d) by done.
  split; [|done].
  rewrite get_access_token_eq, Hr by done.
  unfold js_get. by rewrite bind_mret, Hf.
Qed.

Lemma token_field_falsy_witness :
  truthy (PStr EmptyString) = false ∧
  get_access_token w_empty_token =
    (SysExit 1,
     [Urlopen (token_req w_empty_token);
      Print Stderr [Txt "Failed to get access token. Response: ";
                    Fmt (PDict {[ "access_token" := PStr EmptyString ]})]]) ∧
  fst (run w_empty_token) = 1.
Proof.
  destruct (token_field_falsy w_empty_token {[ "access_token" := PStr EmptyString ]} (PStr EmptyString)
              eq_refl eq_refl eq_refl eq_refl eq_refl eq_refl) as (H1 & H2 & _).
  split; [reflexivity|]. split; [exact H1 | exact H2].
Defined.

Lemma present_absent (w : World) (name : string) :
  environ w !! name = None → present w name = false.
Proof. unfold present. by intros ->. Qed.

Lemma present_empty (w : World) (name : string) :
  environ w !! name = Some EmptyString → present w name = false.
Proof. unfold present. by intros ->. Qed.

(** C4, as the code has it.  For every required setting (none has a default)
    that is absent from the environment: reading it exits at once with status
    1 after one line on standard error naming it, and the read itself makes no
    network call; the process ends with status 1 and never sends the
    submission request.  No network call at all is made when the setting is
    one of the three the token stage reads; the portal, project and task
    identifiers are read only after the token exchange. *)
Theorem required_setting_absent (w : World) (name : string) :
  name ∈ required_settings → environ w !! name = None →
  get_env w name None true = (SysExit 1, [Print Stderr [Txt (MISSING +:+ name)]]) ∧
  fst (run w) = 1 ∧
  (net_calls (snd (run w)) = [] ∨ net_calls (snd (run w)) = [token_req w]) ∧
  (name ∈ oauth_settings → net_calls (snd (run w)) = []).
Proof.
  intros Hin Habs. pose proof (present_absent w name Habs) as Hp.
  split; [by rewrite get_env_required, Hp|].
  by apply run_not_present.
Qed.

Lemma required_setting_absent_witness :
  get_env w_no_secret "ZOHO_CLIENT_SECRET" None true =
    (SysExit 1,
     [Print Stderr [Txt "Missing required environment variable: ZOHO_CLIENT_SECRET"]]) ∧
  fst (run w_no_secret) = 1 ∧
  net_calls (snd (run w_no_secret)) = [].
Proof.
  assert ("ZOHO_CLIENT_SECRET" ∈ required_settings) as Hin
    by (cbv; repeat constructor).
  assert ("ZOHO_CLIENT_SECRET" ∈ oauth_settings) as Ho
    by (cbv; repeat constructor).
  destruct (required_setting_absent w_no_secret "ZOHO_CLIENT_SECRET" Hin eq_refl)
    as (H1 & H2 & _ & H4).
  split; [exact H1|]. split; [exact H2 | exact (H4 Ho)].
Defined.

(** C4 as stated fails: with the portal identifier absent (and the token
    settings present), the token request goes out before the process
    aborts. *)
Lemma absent_portal_after_token_call :
  "ZOHO_PORTAL_ID" ∈ required_settings ∧
  environ w_no_portal !! "ZOHO_PORTAL_ID" = None ∧
  run w_no_portal =
    (1, [Urlopen (token_req w_no_portal);
         Print Stderr [Txt "Missing required environment variable: ZOHO_PORTAL_ID"]]) ∧
  net_calls (snd (run w_no_portal)) ≠ [].
Proof.
  split; [cbv; repeat constructor|].
  vm_compute. repeat split; discriminate.
Qed.

(** C8. For a setting read as required, a value that is present but empty
    ends the process exactly as an absent value does: status 1 after one line
    on standard error naming the setting, whatever default was supplied; for
    each of the script's six required settings the run then ends with status 1
    and without the submission request. *)
Theorem required_setting_empty (w : World) (name : string) (dflt : option string) :
  environ w !! name = Some EmptyString →
  get_env w name dflt true = (SysExit 1, [Print Stderr [Txt (MISSING +:+ name)]]) ∧
  (∀ w', environ w' !! name = None →
         get_env w' name None true = get_env w name dflt true) ∧
  (name ∈ required_settings →
   fst (run w) = 1 ∧
   (net_calls (snd (run w)) = [] ∨ net_calls (snd (run w)) = [token_req w])).
Proof.
  intros He.
  assert (get_env w name dflt true =
            (SysExit 1, [Print Stderr [Txt (MISSING +:+ name)]])) as Hg.
  { apply get_env_required_missing. by rewrite (getenv_empty w name dflt He). }
  split; [done|]. split.
  - intros w' Habs. rewrite Hg, get_env_required.
    by rewrite (present_absent w' name Habs).
  - intros Hin.
    destruct (run_not_present w name Hin (present_empty w name He)) as (? & ? & _).
    done.
Qed.

Lemma required_setting_empty_witness :
  get_env w_empty_portal "ZOHO_PORTAL_ID" (Some "fallback") true =
    (SysExit 1,
     [Print Stderr [Txt "Missing required environment variable: ZOHO_PORTAL_ID"]]) ∧
  fst (run w_empty_portal) = 1.
Proof.
  assert ("ZOHO_PORTAL_ID" ∈ required_settings) as Hin
    by (cbv; repeat constructor).
  destruct (required_setting_empty w_empty_portal "ZOHO_PORTAL_ID" (Some "fallback")
              eq_refl) as (H1 & _ & H3).
  split; [exact H1 | exact (proj1 (H3 Hin))].
Defined.

Lemma log_req_data (w : World) (tok : pyval) (d h : string) :
  data (log_req w tok d h) =
    [("date", d); ("bill_status", bill_status w); ("hours", h);
     ("notes", notes_prefix w +:+ " - " +:+ d)] ++
    (if present w "ZOHO_USER_ID"
     then [("owner", default EmptyString (environ w !! "ZOHO_USER_ID"))] else []).
Proof.
  unfold log_req, log_request, log_params, present, nonempty. simpl.
  destruct (environ w !! "ZOHO_USER_ID") as [u|]; [|done].
  by destruct (negb (String.eqb u EmptyString)).
Qed.

(** C5, as the code has it.  In every run that ends with status 0, exactly
    two requests were sent, the token request and then the submission, and the
    submission body has, in this order, date (the computed date string),
    bill_status, hours (the computed duration string) and notes, equal to the
    notes prefix, then " - ", then the date string; owner follows if and only
    if the user identifier is set to a non-empty value, and nothing else. *)
Theorem submission_body (w : World) :
  fst (run w) = 0 →
  ∃ tok d h,
    calc_yesterday_hours w = (Ret (d, h), []) ∧
    net_calls (snd (run w)) = [token_req w; log_req w tok d h] ∧
    data (log_req w tok d h) =
      [("date", d); ("bill_status", bill_status w); ("hours", h);
       ("notes", notes_prefix w +:+ " - " +:+ d)] ++
      (if present w "ZOHO_USER_ID"
       then [("owner", default EmptyString (environ w !! "ZOHO_USER_ID"))] else []).
Proof.
  rewrite run_fst, run_snd. intros H0.
  destruct (main_cases w) as [(tok & d & h & _ & _ & Hc & _ & Hm)|[Ha _]].
  - exists tok, d, h. split; [done|]. split; [|apply log_req_data].
    rewrite Hm. cbn [snd]. rewrite net_calls_app.
    destruct (report_cases (urlopen w (log_req w tok d h))) as [-> _].
    reflexivity.
  - apply aborts_status in Ha. lia.
Qed.

Lemma submission_body_witness :
  fst (run w_user) = 0 ∧
  ∃ tok,
    net_calls (snd (run w_user)) =
      [token_req w_user; log_req w_user tok "02-29-2024" "09:00"] ∧
    data (log_req w_user tok "02-29-2024" "09:00") =
      [("date", "02-29-2024"); ("bill_status", "Billable"); ("hours", "09:00");
       ("notes", "GitHub auto log - 02-29-2024"); ("owner", "u77")].
Proof.
  split; [reflexivity|].
  destruct (submission_body w_user eq_refl) as (tok & d & h & Hc & Hn & Hd).
  assert (d = "02-29-2024" ∧ h = "09:00") as [-> ->].
  { assert (calc_yesterday_hours w_user = (Ret ("02-29-2024", "09:00"), [])) as Hv
      by (vm_compute; reflexivity).
    rewrite Hv in Hc. by inversion Hc. }
  exists tok. split; [exact Hn | exact Hd].
Defined.

(** C5 as stated fails: in a successful run the notes field is not the
    prefix followed directly by the date string; a separator stands between
    them. *)
Lemma notes_not_plain_concatenation :
  fst (run w_ok) = 0 ∧
  calc_yesterday_hours w_ok = (Ret ("02-29-2024", "09:00"), []) ∧
  notes_prefix w_ok = "GitHub auto log" ∧
  (λ req, field "notes" (data req)) <$> last (net_calls (snd (run w_ok))) =
    Some (Some "GitHub auto log - 02-29-2024") ∧
  "GitHub auto log - 02-29-2024" ≠ notes_prefix w_ok +:+ "02-29-2024".
Proof.
  split; [by vm_compute|]. split; [by vm_compute|]. split; [by vm_compute|].
  split; [by vm_compute|]. vm_compute. discriminate.
Qed.

(** C10. Whenever the user identifier is set to the empty string, the
    submission body the script builds is exactly date, bill_status, hours and
    notes, and no request of the run carries an owner field. *)
Theorem empty_user_id_no_owner (w : World) :
  environ w !! "ZOHO_USER_ID" = Some EmptyString →
  (∀ tok d h,
     data (log_req w tok d h) =
       [("date", d); ("bill_status", bill_status w); ("hours", h);
        ("notes", notes_prefix w +:+ " - " +:+ d)]) ∧
  (∀ req, req ∈ net_calls (snd (run w)) → field "owner" (data req) = None).
Proof.
  intros Hu.
  assert (∀ tok d h,
     data (log_req w tok d h) =
       [("date", d); ("bill_status", bill_status w); ("hours", h);
        ("notes", notes_prefix w +:+ " - " +:+ d)]) as Hdata.
  { intros tok d h. rewrite log_req_data, (present_empty w _ Hu). apply app_nil_r. }
  split; [done|].
  intros req. rewrite run_snd.
  destruct (main_cases w) as [(tok & d & h & _ & _ & _ & _ & Hm)|[_ [Hn|Hn]]].
  - rewrite Hm. cbn [snd]. rewrite net_calls_app.
    destruct (report_cases (urlopen w (log_req w tok d h))) as [-> _].
    simpl. intros Hin. set_unfold in Hin.
    destruct Hin as [->|[->|[]]]; [reflexivity|].
    by rewrite Hdata.
  - rewrite Hn. intros Hin. set_unfold in Hin. done.
  - rewrite Hn. intros Hin. set_unfold in Hin. by destruct Hin as [->|[]].
Qed.

Lemma empty_user_id_no_owner_witness :
  environ w_empty_user !! "ZOHO_USER_ID" = Some EmptyString ∧
  fst (run w_empty_user) = 0 ∧
  net_calls (snd (run w_empty_user)) =
    [token_req w_empty_user; log_req w_empty_user (PStr "tok") "02-29-2024" "09:00"] ∧
  field "owner" (data (log_req w_empty_user (PStr "tok") "02-29-2024" "09:00")) = None.
Proof.
  split; [reflexivity|]. split; [reflexivity|].
  assert (net_calls (snd (run w_empty_user)) =
    [token_req w_empty_user; log_req w_empty_user (PStr "tok") "02-29-2024" "09:00"])
    as Hn by (vm_compute; reflexivity).
  split; [exact Hn|].
  apply (proj2 (empty_user_id_no_owner w_empty_user eq_refl)).
  rewrite Hn. apply list_elem_of_further, list_elem_of_here.
Defined.

Lemma replace_time_Ret (y d : datetime) (h m : Z) :
  replace_time y h m = Ret d →
  (0 <=? h) && (h <=? 23) && (0 <=? m) && (m <=? 59) = true.
Proof.
  unfold replace_time.
  destruct ((0 <=? h) && (h <=? 23)); simpl; [|done].
  by destruct ((0 <=? m) && (m <=? 59)).
Qed.

(** The window computation on input it does not accept: an exception, and no
    event before it. *)
Lemma calc_raises (w : World) :
  zone_known w (tz_name w) = false ∨
  clock_accepted (time_start w) = false ∨
  clock_accepted (time_end w) = false →
  ∃ e, calc_yesterday_hours w = (Raise e, []).
Proof.
  intros H. rewrite calc_yesterday_hours_eq. unfold ZoneInfo, clock_accepted in *.
  destruct (zone_known w (tz_name w)); [rewrite bind_mret | by eauto].
  destruct (minus_one_day _) as [y|c|e] eqn:Hy;
    [rewrite bind_pure_Ret | by destruct (minus_one_day_no_exit _ _ Hy) | by eauto].
  pose proof (parse_clock_events (time_start w)) as Hs.
  destruct (parse_clock (time_start w)) as [[[sh sm]|c|e] ts] eqn:Hps;
    simpl in Hs; subst ts;
    [rewrite bind_Ret_nil | by destruct (parse_clock_no_exit _ _ _ Hps) | by eauto].
  pose proof (parse_clock_events (time_end w)) as He.
  destruct (parse_clock (time_end w)) as [[[eh em]|c|e] te] eqn:Hpe;
    simpl in He; subst te;
    [rewrite bind_Ret_nil | by destruct (parse_clock_no_exit _ _ _ Hpe) | by eauto].
  destruct (replace_time y sh sm) as [sd|c|e] eqn:Hrs;
    [rewrite bind_pure_Ret | by destruct (replace_time_no_exit _ _ _ _ Hrs) | by eauto].
  destruct (replace_time y eh em) as [ed|c|e] eqn:Hre;
    [rewrite bind_pure_Ret | by destruct (replace_time_no_exit _ _ _ _ Hre) | by eauto].
  apply replace_time_Ret in Hrs, Hre.
  destruct H as [H|[H|H]]; congruence.
Qed.

(** A run whose token stage returned and whose portal, project and task
    identifiers are present ends as the window computation ends when that
    raises: by the same exception, which nothing catches, with the token
    request as its only event. *)
Lemma main_window_raises (w : World) (tok : pyval) (t : list event) (e : exn) :
  get_access_token w = (Ret tok, t) →
  present w "ZOHO_PORTAL_ID" && present w "ZOHO_PROJECT_ID" &&
    present w "ZOHO_TASK_ID" = true →
  calc_yesterday_hours w = (Raise e, []) →
  main w = (Raise e, [Urlopen (token_req w)]).
Proof.
  intros Ht Hp Hc.
  assert (t = [Urlopen (token_req w)]) as ->.
  { destruct (get_access_token_cases w) as [(tok' & Ht' & _)|[Ha _]].
    - rewrite Ht in Ht'. by injection Ht'.
    - unfold aborts in Ha. rewrite Ht in Ha. destruct Ha. }
  apply andb_prop in Hp as [[H1 H2]%andb_prop H3].
  unfold main. rewrite Ht, bind_Ret, add_time_log_eq, Hc by done.
  reflexivity.
Qed.

(** C6, as the code has it.  For clock strings of printable ASCII: when the
    zone name is not recognised, or a clock string is not two parts around one
    colon that [int] converts to an hour within 0..23 and a minute within
    0..59, the window computation raises an exception, having printed
    nothing; for an unrecognised zone it is the exception of the zone lookup
    (ZoneInfoNotFoundError, or ValueError for a key such as the empty string).
    In every run that reaches the window computation (the token stage returned
    and the portal, project and task identifiers are present) nothing catches
    that exception: it ends the run, whose only event is the token request, so
    the script has printed no message of its own.  In every run at all, the
    exit status is 1 and the submission request is never sent. *)
Theorem window_input_rejected (w : World) :
  plain_text (time_start w) = true → plain_text (time_end w) = true →
  zone_known w (tz_name w) = false ∨
  clock_accepted (time_start w) = false ∨
  clock_accepted (time_end w) = false →
  ∃ e,
    calc_yesterday_hours w = (Raise e, []) ∧
    (zone_known w (tz_name w) = false → e = zone_failure w (tz_name w)) ∧
    (∀ tok t,
       get_access_token w = (Ret tok, t) →
       present w "ZOHO_PORTAL_ID" && present w "ZOHO_PROJECT_ID" &&
         present w "ZOHO_TASK_ID" = true →
       main w = (Raise e, [Urlopen (token_req w)])) ∧
    fst (run w) = 1 ∧
    (net_calls (snd (run w)) = [] ∨ net_calls (snd (run w)) = [token_req w]).
Proof.
  intros _ _ H. destruct (calc_raises w H) as [e He].
  exists e. split; [done|]. split.
  { intros Hz. rewrite calc_yesterday_hours_eq in He. unfold ZoneInfo in He.
    rewrite Hz in He. by injection He. }
  split.
  { intros tok t Ht Hp. by apply (main_window_raises w tok t e). }
  rewrite run_fst, run_snd.
  destruct (main_cases w) as [(tok & d & h & _ & _ & Hc & _)|[Ha Hn]].
  { congruence. }
  split; [by apply aborts_status | done].
Qed.

Lemma window_input_rejected_witness :
  main w_bad_zone =
    (Raise (ZoneInfoNotFoundError "Mars/Olympus"), [Urlopen (token_req w_bad_zone)]) ∧
  main w_empty_zone =
    (Raise (ValueError_key EmptyString), [Urlopen (token_req w_empty_zone)]) ∧
  main w_bad_start =
    (Raise (ValueError_literal "ab"), [Urlopen (token_req w_bad_start)]) ∧
  main w_bad_end =
    (Raise (ValueError_field "minute"), [Urlopen (token_req w_bad_end)]).
Proof.
  split; [|split; [|split]].
  - destruct (window_input_rejected w_bad_zone eq_refl eq_refl (or_introl eq_refl))
      as (e & _ & Hz & Hm & _).
    rewrite (Hz eq_refl) in Hm.
    exact (Hm (PStr "tok") [Urlopen (token_req w_bad_zone)] eq_refl eq_refl).
  - destruct (window_input_rejected w_empty_zone eq_refl eq_refl (or_introl eq_refl))
      as (e & _ & Hz & Hm & _).
    rewrite (Hz eq_refl) in Hm.
    exact (Hm (PStr "tok") [Urlopen (token_req w_empty_zone)] eq_refl eq_refl).
  - destruct (window_input_rejected w_bad_start eq_refl eq_refl
                (or_intror (or_introl eq_refl))) as (e & Hc & _ & Hm & _).
    injection Hc as <-.
    exact (Hm (PStr "tok") [Urlopen (token_req w_bad_start)] eq_refl eq_refl).
  - destruct (window_input_rejected w_bad_end eq_refl eq_refl
                (or_intror (or_intror eq_refl))) as (e & Hc & _ & Hm & _).
    injection Hc as <-.
    exact (Hm (PStr "tok") [Urlopen (token_req w_bad_end)] eq_refl eq_refl).
Defined.

(** C6 as stated fails: "9:5" is not a valid "HH:MM" string, yet the run
    with it as start time succeeds and logs 09:25 hours. *)
Lemma loose_clock_string_accepted :
  time_start w_loose_clock = "9:5" ∧
  valid_hhmm (time_start w_loose_clock) = false ∧
  zone_known w_loose_clock (tz_name w_loose_clock) = true ∧
  valid_hhmm (time_end w_loose_clock) = true ∧
  calc_yesterday_hours w_loose_clock = (Ret ("02-29-2024", "09:25"), []) ∧
  fst (run w_loose_clock) = 0.
Proof. vm_compute. repeat split. Qed.

(** C7. With start "09:30" and end "18:30", in a recognised zone, the
    window computation returns the duration string "09:00"; the variant under
    Scripts/ returns the same string as a constant. *)
Theorem default_window_nine_hours (w : World) (y : datetime) :
  time_start w = "09:30" → time_end w = "18:30" →
  zone_known w (tz_name w) = true →
  minus_one_day (now_in w (tz_name w)) = Ret y →
  calc_yesterday_hours w = (Ret (strftime_mdY y, "09:00"), []) ∧
  Fixed.calculate_hours = "09:00".
Proof.
  intros Hs He Hz Hy. split; [|reflexivity].
  rewrite (calc_parsed w y 9 30 18 30); try done; try lia.
  - by rewrite Hs.
  - by rewrite He.
Qed.

Lemma default_window_nine_hours_witness :
  calc_yesterday_hours w_ok = (Ret ("02-29-2024", "09:00"), []).
Proof.
  exact (proj1 (default_window_nine_hours w_ok (DateTime 2024 2 29 8 15 0 0)
                  eq_refl eq_refl eq_refl eq_refl)).
Defined.

(** * Further properties of the script *)

(** ** What a returned token and a returned window tell *)

(** The token stage returns only what the decoded answer holds under
    access_token, only when that is truthy, and only after the one request. *)
Lemma get_access_token_Ret (w : World) (tok : pyval) (t : list event) :
  get_access_token w = (Ret tok, t) →
  t = [Urlopen (token_req w)] ∧
  present w "ZOHO_CLIENT_ID" && present w "ZOHO_CLIENT_SECRET" &&
    present w "ZOHO_REFRESH_TOKEN" = true ∧
  ∃ d, token_reply w = inr (PDict d) ∧ d !! "access_token" = Some tok ∧
       truthy tok = true.
Proof.
  destruct (present w "ZOHO_CLIENT_ID" && present w "ZOHO_CLIENT_SECRET" &&
            present w "ZOHO_REFRESH_TOKEN") eqn:Hp.
  2:{ destruct (get_access_token_missing w Hp) as (name & _ & _ & ->). done. }
  pose proof Hp as Hp'. apply andb_prop in Hp as [[H1 H2]%andb_prop H3].
  rewrite get_access_token_eq by done.
  destruct (token_reply w) as [e|js]; [intros [=]|].
  destruct js as [| | | | | |d]; try (by intros [=]).
  unfold js_get. rewrite bind_mret.
  destruct (d !! "access_token") as [v|] eqn:Hd; [|intros [=]].
  intros H. unfold emit in H. rewrite bind_Ret in H. cbn in H.
  destruct (truthy v) eqn:Hv; [|done]. cbn in H.
  injection H as Htok Ht. subst tok t.
  split; [reflexivity|]. split; [done|]. by exists d.
Qed.

(** A returned window: the zone was found, the previous day exists, both
    clock strings were accepted with the end after the start, and the result
    is the formatted date and difference; nothing was printed. *)
Lemma calc_Ret_inv (w : World) (d h : string) (t : list event) :
  calc_yesterday_hours w = (Ret (d, h), t) →
  t = [] ∧ zone_known w (tz_name w) = true ∧
  ∃ y sh sm eh em,
    minus_one_day (now_in w (tz_name w)) = Ret y ∧
    parse_clock (time_start w) = (Ret (sh, sm), []) ∧
    parse_clock (time_end w) = (Ret (eh, em), []) ∧
    (0 ≤ sh < 24 ∧ 0 ≤ sm < 60 ∧ 0 ≤ eh < 24 ∧ 0 ≤ em < 60) ∧
    sh * 60 + sm < eh * 60 + em ∧
    d = strftime_mdY y ∧
    h = fmt02d (((eh * 60 + em) - (sh * 60 + sm)) / 60) +:+ ":" +:+
        fmt02d (((eh * 60 + em) - (sh * 60 + sm)) mod 60).
Proof.
  intros Hc. pose proof Hc as Hc0.
  rewrite calc_yesterday_hours_eq in Hc. unfold ZoneInfo in Hc.
  destruct (zone_known w (tz_name w)) eqn:Hz; [rewrite bind_mret in Hc | done].
  destruct (minus_one_day _) as [y|c|e] eqn:Hy; [rewrite bind_pure_Ret in Hc | done..].
  pose proof (parse_clock_events (time_start w)) as Hs.
  destruct (parse_clock (time_start w)) as [[[sh sm]|c|e] ts] eqn:Hps;
    simpl in Hs; subst ts; [rewrite bind_Ret_nil in Hc | done..].
  pose proof (parse_clock_events (time_end w)) as He.
  destruct (parse_clock (time_end w)) as [[[eh em]|c|e] te] eqn:Hpe;
    simpl in He; subst te; [rewrite bind_Ret_nil in Hc | done..].
  destruct (replace_time y sh sm) as [sd|c|e] eqn:Hrs; [|done..].
  destruct (replace_time y eh em) as [ed|c|e] eqn:Hre; [|done..].
  clear Hc.
  apply replace_time_Ret in Hrs, Hre.
  repeat (apply andb_prop in Hrs as [Hrs ?]).
  repeat (apply andb_prop in Hre as [Hre ?]).
  rewrite ?Z.leb_le in *.
  rewrite (calc_parsed w y sh sm eh em) in Hc0 by (try done; lia).
  destruct (eh * 60 + em <=? sh * 60 + sm) eqn:Hle; [done|].
  apply Z.leb_gt in Hle. cbv zeta in Hc0. injection Hc0 as <- <- <-.
  split; [done|]. split; [done|].
  exists y, sh, sm, eh, em. repeat split; try done; lia.
Qed.

(** ** Failures of the token exchange *)

(** X1. When the token request fails in the transport, or its body is not
    JSON, the script prints "Error getting access token: " with the exception
    on standard error and exits with status 1; the token request is the only
    network call. *)
Theorem token_transport_failure (w : World) (e : exn) :
  present w "ZOHO_CLIENT_ID" = true →
  present w "ZOHO_CLIENT_SECRET" = true →
  present w "ZOHO_REFRESH_TOKEN" = true →
  urlopen w (token_req w) = inl e ∨
  (∃ resp, urlopen w (token_req w) = inr resp ∧ json_loads w (body resp) = inl e) →
  run w =
    (1, [Urlopen (token_req w);
         Print Stderr [Txt "Error getting access token: "; ExnText e]]).
Proof.
  intros H1 H2 H3 He. apply (run_eq w (SysExit 1)).
  assert (token_reply w = inl e) as Hr.
  { unfold token_reply. destruct He as [->|(resp & -> & ->)]; done. }
  unfold main. by rewrite get_access_token_eq, Hr.
Qed.

Lemma token_transport_failure_witness :
  run w_token_401 =
    (1, [Urlopen (token_req w_token_401);
         Print Stderr [Txt "Error getting access token: ";
                       ExnText (HTTPError 401 "Unauthorized" (Some "denied"))]]).
Proof.
  exact (token_transport_failure w_token_401 (HTTPError 401 "Unauthorized" (Some "denied"))
           eq_refl eq_refl eq_refl (or_introl eq_refl)).
Defined.

(** X2. When the token endpoint's body decodes to JSON that is not an
    object (a list, a string, a number, null), the lookup of access_token
    raises: the run ends with status 1 after the token request, and the script
    has printed nothing. *)
Theorem token_reply_not_object (w : World) (js : pyval) :
  present w "ZOHO_CLIENT_ID" = true →
  present w "ZOHO_CLIENT_SECRET" = true →
  present w "ZOHO_REFRESH_TOKEN" = true →
  token_reply w = inr js → (∀ d, js ≠ PDict d) →
  main w = (Raise (AttributeError "get"), [Urlopen (token_req w)]) ∧
  fst (run w) = 1.
Proof.
  intros H1 H2 H3 Hr Hjs.
  assert (main w = (Raise (AttributeError "get"), [Urlopen (token_req w)])) as Hm.
  { unfold main. rewrite get_access_token_eq, Hr by done.
    destruct js as [| | | | | |d]; try reflexivity. by destruct (Hjs d). }
  split; [done|]. by rewrite (run_eq w _ _ Hm).
Qed.

Lemma token_reply_not_object_witness :
  main w_token_list = (Raise (AttributeError "get"), [Urlopen (token_req w_token_list)]) ∧
  fst (run w_token_list) = 1.
Proof.
  apply (token_reply_not_object w_token_list (PList [PStr "access_token"])
           eq_refl eq_refl eq_refl eq_refl).
  intros d. discriminate.
Defined.

(** ** The submission *)

(** From a returned token and a returned window on, the run is the three
    events up to the submission request and then what [report] makes of the
    transport's answer. *)
Lemma main_after_window (w : World) (tok : pyval) (t : list event) (d h : string) :
  get_access_token w = (Ret tok, t) →
  present w "ZOHO_PORTAL_ID" && present w "ZOHO_PROJECT_ID" &&
    present w "ZOHO_TASK_ID" = true →
  calc_yesterday_hours w = (Ret (d, h), []) →
  main w =
    (fst (report (urlopen w (log_req w tok d h))),
     [Urlopen (token_req w); logging_line d h; Urlopen (log_req w tok d h)] ++
     snd (report (urlopen w (log_req w tok d h)))).
Proof.
  intros Ht Hp Hc.
  destruct (get_access_token_Ret w tok t Ht) as (-> & _ & _).
  apply andb_prop in Hp as [[H1 H2]%andb_prop H3].
  unfold main. rewrite Ht, bind_Ret, add_time_log_eq, Hc, bind_Ret_nil by done.
  unfold emit. rewrite !bind_Ret. reflexivity.
Qed.




(** X4. When the service answers the submission with an HTTP error, the
    script prints "HTTP Error:" with the status code and reason on standard
    error and then reads and decodes the error body.  If the body decodes, it
    is printed on standard error too and the script exits with status 1; if it
    does not, the UnicodeDecodeError is raised inside the handler and caught by
    nothing, so the run ends with status 1 after the first line alone. *)
Theorem submission_http_error (w : World) (tok : pyval) (t : list event)
    (d h : string) (code : Z) (reason : string) (err_body : option string) :
  get_access_token w = (Ret tok, t) →
  present w "ZOHO_PORTAL_ID" && present w "ZOHO_PROJECT_ID" &&
    present w "ZOHO_TASK_ID" = true →
  calc_yesterday_hours w = (Ret (d, h), []) →
  urlopen w (log_req w tok d h) = inl (HTTPError code reason err_body) →
  main w =
    (match err_body with
     | Some _ => SysExit 1
     | None => Raise UnicodeDecodeError
     end,
     [Urlopen (token_req w); logging_line d h; Urlopen (log_req w tok d h);
      Print Stderr [Txt "HTTP Error:"; Num code; Txt reason]] ++
     match err_body with
     | Some text => [Print Stderr [Txt text]]
     | None => []
     end) ∧
  fst (run w) = 1.
Proof.
  intros Ht Hp Hc Hu.
  assert (main w =
    (match err_body with
     | Some _ => SysExit 1
     | None => Raise UnicodeDecodeError
     end,
     [Urlopen (token_req w); logging_line d h; Urlopen (log_req w tok d h);
      Print Stderr [Txt "HTTP Error:"; Num code; Txt reason]] ++
     match err_body with
     | Some text => [Print Stderr [Txt text]]
     | None => []
     end)) as Hm.
  { rewrite (main_after_window w tok t d h), Hu by done. by destruct err_body. }
  split; [done|]. rewrite run_fst, Hm. by destruct err_body.
Qed.

Lemma submission_http_error_witness :
  main w_submit_400 =
    (SysExit 1,
     [Urlopen (token_req w_submit_400); logging_line "02-29-2024" "09:00";
      Urlopen (log_req w_submit_400 (PStr "tok") "02-29-2024" "09:00");
      Print Stderr [Txt "HTTP Error:"; Num 400; Txt "Bad Request"];
      Print Stderr [Txt "invalid date"]]) ∧
  main w_submit_400_binary =
    (Raise UnicodeDecodeError,
     [Urlopen (token_req w_submit_400_binary); logging_line "02-29-2024" "09:00";
      Urlopen (log_req w_submit_400_binary (PStr "tok") "02-29-2024" "09:00");
      Print Stderr [Txt "HTTP Error:"; Num 400; Txt "Bad Request"]]).
Proof.
  split.
  - exact (proj1 (submission_http_error w_submit_400 (PStr "tok")
             [Urlopen (token_req w_submit_400)] "02-29-2024" "09:00"
             400 "Bad Request" (Some "invalid date")
             eq_refl eq_refl eq_refl eq_refl)).
  - exact (proj1 (submission_http_error w_submit_400_binary (PStr "tok")
             [Urlopen (token_req w_submit_400_binary)] "02-29-2024" "09:00"
             400 "Bad Request" None eq_refl eq_refl eq_refl eq_refl)).
Defined.

(** X5. When the submission fails with any other exception, the script
    prints "Error calling Zoho Projects API: " with the exception on standard
    error and exits with status 1. *)
Theorem submission_other_error (w : World) (tok : pyval) (t : list event)
    (d h : string) (e : exn) :
  get_access_token w = (Ret tok, t) →
  present w "ZOHO_PORTAL_ID" && present w "ZOHO_PROJECT_ID" &&
    present w "ZOHO_TASK_ID" = true →
  calc_yesterday_hours w = (Ret (d, h), []) →
  urlopen w (log_req w tok d h) = inl e →
  (∀ code reason text, e ≠ HTTPError code reason text) →
  run w =
    (1, [Urlopen (token_req w); logging_line d h; Urlopen (log_req w tok d h);
         Print Stderr [Txt "Error calling Zoho Projects API: "; ExnText e]]).
Proof.
  intros Ht Hp Hc Hu He. apply (run_eq w (SysExit 1)).
  rewrite (main_after_window w tok t d h), Hu by done.
  destruct e as [code reason err_body| | | | | | | | | |]; try reflexivity.
  by destruct (He code reason err_body).
Qed.

Lemma submission_other_error_witness :
  run w_submit_timeout =
    (1, [Urlopen (token_req w_submit_timeout); logging_line "02-29-2024" "09:00";
         Urlopen (log_req w_submit_timeout (PStr "tok") "02-29-2024" "09:00");
         Print Stderr [Txt "Error calling Zoho Projects API: ";
                       ExnText (TransportError "timed out")]]).
Proof.
  apply (submission_other_error w_submit_timeout (PStr "tok")
           [Urlopen (token_req w_submit_timeout)] "02-29-2024" "09:00"
           (TransportError "timed out") eq_refl eq_refl eq_refl eq_refl).
  intros code reason text. discriminate.
Defined.

(** ** What no run does *)

(** X6. Every run ends with status 0 or 1 and makes at most two network
    calls: none, the token request alone, or the token request followed by one
    submission request; a submission is never sent without a token request
    before it. *)
Theorem run_at_most_two_calls (w : World) :
  (fst (run w) = 0 ∨ fst (run w) = 1) ∧
  (net_calls (snd (run w)) = [] ∨
   net_calls (snd (run w)) = [token_req w] ∨
   ∃ tok d h, net_calls (snd (run w)) = [token_req w; log_req w tok d h]).
Proof.
  rewrite run_fst, run_snd.
  destruct (main_cases w) as [(tok & d & h & _ & _ & _ & _ & Hm)|[Ha Hn]].
  - rewrite Hm. cbn [fst snd]. rewrite net_calls_app.
    destruct (report_cases (urlopen w (log_req w tok d h))) as [-> Hr].
    split; [|right; right; by exists tok, d, h].
    destruct Hr as [[-> _]|Ha]; [by left|].
    right. by apply aborts_status.
  - split; [right; by apply aborts_status|].
    destruct Hn as [->| ->]; auto.
Qed.

(** X7. Whenever a second request is sent, it is a POST to the logs URL of
    the configured portal, project and task whose Authorization header is
    "Zoho-oauthtoken " followed by exactly the value the token endpoint's
    decoded answer holds under access_token, and that value is truthy. *)
Theorem submission_uses_returned_token (w : World) (req1 req2 : request) :
  net_calls (snd (run w)) = [req1; req2] →
  ∃ js tok,
    token_reply w = inr (PDict js) ∧ js !! "access_token" = Some tok ∧
    truthy tok = true ∧
    headers req2 =
      [("Authorization", [Txt "Zoho-oauthtoken "; Fmt tok]);
       ("Content-Type", [Txt "application/x-www-form-urlencoded;charset=UTF-8"])] ∧
    method req2 = "POST" ∧
    url req2 =
      "https://projectsapi.zoho.com/restapi/portal/" +:+
      str_of (environ w !! "ZOHO_PORTAL_ID") +:+ "/projects/" +:+
      str_of (environ w !! "ZOHO_PROJECT_ID") +:+ "/tasks/" +:+
      str_of (environ w !! "ZOHO_TASK_ID") +:+ "/logs/".
Proof.
  rewrite run_snd. intros Hn.
  destruct (main_cases w) as [(tok & d & h & Ht & _ & _ & _ & Hm)|[_ [Hn'|Hn']]];
    [|congruence..].
  rewrite Hm in Hn. cbn [snd] in Hn. rewrite net_calls_app in Hn.
  destruct (report_cases (urlopen w (log_req w tok d h))) as [Hq _].
  rewrite Hq in Hn. injection Hn as _ <-.
  destruct (get_access_token_Ret w tok _ Ht) as (_ & _ & js & Hr & Hjs & Htr).
  exists js, tok. repeat split; done.
Qed.

Lemma submission_uses_returned_token_witness :
  ∃ js tok,
    token_reply w_ok = inr (PDict js) ∧ js !! "access_token" = Some tok ∧
    headers (log_req w_ok (PStr "tok") "02-29-2024" "09:00") =
      [("Authorization", [Txt "Zoho-oauthtoken "; Fmt tok]);
       ("Content-Type", [Txt "application/x-www-form-urlencoded;charset=UTF-8"])].
Proof.
  destruct (submission_uses_returned_token w_ok (token_req w_ok)
              (log_req w_ok (PStr "tok") "02-29-2024" "09:00") eq_refl)
    as (js & tok & H1 & H2 & _ & H4 & _).
  exists js, tok. split; [exact H1|]. split; [exact H2 | exact H4].
Defined.

(** ** The window, whatever the clock strings *)

Lemma valid_hhmm_clock (h m : Z) :
  0 ≤ h < 24 → 0 ≤ m < 60 → valid_hhmm (clock h m) = true.
Proof.
  intros Hh Hm. fold (clock_is_valid h m).
  apply (forallb_range (λ m, clock_is_valid h m) 60); [|lia].
  apply (forallb_range (λ h, forallb (λ m, clock_is_valid h m) (range 60)) 24);
    [by vm_compute | lia].
Qed.

Lemma clock_inj (h m h' m' : Z) :
  0 ≤ h < 100 → 0 ≤ m < 100 → 0 ≤ h' < 100 → 0 ≤ m' < 100 →
  clock h m = clock h' m' → h = h' ∧ m = m'.
Proof.
  intros Hh Hm Hh' Hm' Heq.
  pose proof (parse_clock_clock h m Hh Hm) as H1.
  pose proof (parse_clock_clock h' m' Hh' Hm') as H2.
  rewrite Heq in H1. rewrite H1 in H2. by injection H2.
Qed.

(** X8. Whenever the window computation returns, it has printed nothing, the
    duration is a valid "HH:MM" string other than "00:00", and (the zone's
    current date being a valid date) the date string is the ten characters
    MM-DD-YYYY of the day before: this holds for every pair of clock strings
    the script accepts, not only for zero-padded ones. *)
Theorem window_result_well_formed (w : World) (d h : string) (t : list event) :
  valid_date (now_in w (tz_name w)) = true →
  calc_yesterday_hours w = (Ret (d, h), t) →
  t = [] ∧ valid_hhmm h = true ∧ h ≠ "00:00" ∧
  ∃ y, minus_one_day (now_in w (tz_name w)) = Ret y ∧
       toordinal y = toordinal (now_in w (tz_name w)) - 1 ∧
       d = mm_dd_yyyy y ∧ String.length d = 10%nat.
Proof.
  intros Hv Hc.
  destruct (calc_Ret_inv w d h t Hc)
    as (-> & _ & y & sh & sm & eh & em & Hy & _ & _ & Hr & Hlt & -> & ->).
  set (δ := eh * 60 + em - (sh * 60 + sm)).
  assert (0 ≤ δ / 60 < 24 ∧ 0 ≤ δ mod 60 < 60 ∧ 0 < δ) as (Hq & Hm & Hpos).
  { unfold δ. split; [|split]; [Z.div_mod_to_equations; lia..|lia]. }
  rewrite !fmt02d_two_digits by lia. fold (clock (δ / 60) (δ mod 60)).
  destruct (minus_one_day_spec _ _ Hv Hy) as (Hord & Hvy & _).
  split; [done|]. split; [by apply valid_hhmm_clock|]. split.
  - change "00:00" with (clock 0 0). intros Heq.
    apply clock_inj in Heq as [H1 H2]; try lia.
    Z.div_mod_to_equations. lia.
  - exists y. rewrite strftime_mm_dd_yyyy by done. by repeat split.
Qed.

Lemma window_result_well_formed_witness :
  valid_hhmm "09:25" = true ∧ "09:25" ≠ "00:00" ∧
  ∃ y, minus_one_day (now_in w_loose_clock (tz_name w_loose_clock)) = Ret y ∧
       "02-29-2024" = mm_dd_yyyy y.
Proof.
  destruct (window_result_well_formed w_loose_clock "02-29-2024" "09:25" []
              eq_refl eq_refl) as (_ & H2 & H3 & y & Hy & _ & Hd & _).
  split; [exact H2|]. split; [exact H3|]. exists y. split; [exact Hy | exact Hd].
Defined.

(** X9. The duration depends on the two clock strings alone: two runs of the
    window computation that agree on them return the same duration, whatever
    their zones, dates and times of day. *)
Theorem duration_from_clock_strings_only (w1 w2 : World) (d1 h1 d2 h2 : string)
    (t1 t2 : list event) :
  time_start w1 = time_start w2 → time_end w1 = time_end w2 →
  calc_yesterday_hours w1 = (Ret (d1, h1), t1) →
  calc_yesterday_hours w2 = (Ret (d2, h2), t2) →
  h1 = h2.
Proof.
  intros Hs He H1 H2.
  destruct (calc_Ret_inv w1 d1 h1 t1 H1)
    as (_ & _ & y & sh & sm & eh & em & _ & Hps & Hpe & _ & _ & _ & ->).
  destruct (calc_Ret_inv w2 d2 h2 t2 H2)
    as (_ & _ & y' & sh' & sm' & eh' & em' & _ & Hps' & Hpe' & _ & _ & _ & ->).
  rewrite Hs, Hps' in Hps. rewrite He, Hpe' in Hpe.
  injection Hps as -> ->. injection Hpe as -> ->. reflexivity.
Qed.

Lemma duration_from_clock_strings_only_witness :
  calc_yesterday_hours w_ok = (Ret ("02-29-2024", "09:00"), []) ∧
  calc_yesterday_hours w_new_year = (Ret ("12-31-2024", "09:00"), []) ∧
  "09:00" = "09:00".
Proof.
  split; [reflexivity|]. split; [reflexivity|].
  exact (duration_from_clock_strings_only w_ok w_new_year
           "02-29-2024" "09:00" "12-31-2024" "09:00" [] []
           eq_refl eq_refl eq_refl eq_refl).
Defined.

(** ** Clock strings *)

Lemma split_colon_go_length (s cur : string) :
  length (split_colon_go s cur) = S (count_colons s).
Proof.
  revert cur. induction s as [|c s IH]; intros cur; simpl; [done|].
  destruct (Ascii.eqb c colon); simpl; by rewrite IH.
Qed.

Lemma pure_bind_raises {A B} (r : result A) (k : A → M B) :
  (∀ c, r ≠ SysExit c) → (∀ a, ∃ e, k a = (Raise e, [])) →
  ∃ e, pure r ≫= k = (Raise e, []).
Proof.
  intros Hr Hk. destruct r as [a|c|e].
  - rewrite bind_pure_Ret. apply Hk.
  - by destruct (Hr c).
  - by exists e.
Qed.

(** X10. A clock string without a colon, or with more than one, is never
    accepted: reading it always ends in an exception, whatever its parts look
    like. *)
Theorem clock_needs_one_colon (s : string) :
  count_colons s ≠ 1%nat →
  (∃ e, parse_clock s = (Raise e, [])) ∧ clock_accepted s = false.
Proof.
  intros Hn.
  assert (∃ e, parse_clock s = (Raise e, [])) as [e He].
  { pose proof (split_colon_go_length s EmptyString) as Hl.
    unfold parse_clock, unpack2_int, split_colon.
    destruct (split_colon_go s EmptyString) as [|a [|b [|c l]]]; simpl in Hl.
    - by eexists.
    - apply pure_bind_raises; [apply py_int_no_exit | intros _; by eexists].
    - destruct Hn. by injection Hl.
    - repeat (apply pure_bind_raises; [apply py_int_no_exit | intros _]).
      by eexists. }
  split; [by exists e|]. unfold clock_accepted. by rewrite He.
Qed.

Lemma clock_needs_one_colon_witness :
  (∃ e, parse_clock "0930" = (Raise e, [])) ∧
  (∃ e, parse_clock "09:30:00" = (Raise e, [])).
Proof.
  split.
  - apply (clock_needs_one_colon "0930"). vm_compute. lia.
  - apply (clock_needs_one_colon "09:30:00"). vm_compute. lia.
Defined.

Lemma digit_val_inv (a : ascii) (x : Z) :
  digit_val a = Some x → 0 ≤ x < 10 ∧ a = digit_char x.
Proof.
  destruct a as [[] [] [] [] [] [] [] []]; intros H; vm_compute in H;
    try discriminate H; injection H as <-; (split; [lia | reflexivity]).
Qed.

(** X11. Every valid 24-hour "HH:MM" string is accepted by the script and
    read as the hour and minute it shows: strict strings are a subset of what
    the script accepts. *)
Theorem valid_hhmm_accepted (s : string) :
  valid_hhmm s = true →
  ∃ h m, 0 ≤ h < 24 ∧ 0 ≤ m < 60 ∧ s = clock h m ∧
         parse_clock s = (Ret (h, m), []) ∧ clock_accepted s = true.
Proof.
  unfold valid_hhmm. intros H.
  destruct s as [|a [|b [|c [|d [|e [|]]]]]]; try done.
  unfold is_digit in H.
  destruct (digit_val a) as [x|] eqn:Ha; [|done].
  destruct (digit_val b) as [y|] eqn:Hb; [|done].
  destruct (Ascii.eqb c colon) eqn:Hc; [|done].
  destruct (digit_val d) as [u|] eqn:Hd; [|done].
  destruct (digit_val e) as [v|] eqn:He; [|done].
  simpl in H. apply andb_prop in H as [H1%Z.ltb_lt H2%Z.ltb_lt].
  apply digit_val_inv in Ha as [? ->], Hb as [? ->], Hd as [? ->], He as [? ->].
  apply Ascii.eqb_eq in Hc as ->.
  exists (10 * x + y), (10 * u + v).
  assert (String (digit_char x) (String (digit_char y) (String colon
            (String (digit_char u) (String (digit_char v) EmptyString)))) =
          clock (10 * x + y) (10 * u + v)) as Heq.
  { unfold clock, two_digits. cbn [String.append].
    replace ((10 * x + y) / 10) with x by (Z.div_mod_to_equations; lia).
    replace ((10 * x + y) mod 10) with y by (Z.div_mod_to_equations; lia).
    replace ((10 * u + v) / 10) with u by (Z.div_mod_to_equations; lia).
    replace ((10 * u + v) mod 10) with v by (Z.div_mod_to_equations; lia).
    reflexivity. }
  rewrite Heq. split; [lia|]. split; [lia|]. split; [done|].
  assert (parse_clock (clock (10 * x + y) (10 * u + v)) =
            (Ret (10 * x + y, 10 * u + v), [])) as Hp
    by (apply parse_clock_clock; lia).
  split; [done|]. unfold clock_accepted. rewrite Hp.
  repeat (apply andb_true_intro; split); lia.
Qed.

Lemma valid_hhmm_accepted_witness :
  ∃ h m, "23:59" = clock h m ∧ parse_clock "23:59" = (Ret (h, m), []).
Proof.
  destruct (valid_hhmm_accepted "23:59" eq_refl) as (h & m & _ & _ & H1 & H2 & _).
  exists h, m. split; [exact H1 | exact H2].
Defined.

(** ** The token request *)

(** X12. A run that reaches the network at all starts with the token
    request, and that request never carries an empty credential: the three
    OAuth settings are non-empty and appear, with grant_type=refresh_token, as
    the form fields of a POST without headers to /oauth/v2/token on the
    configured host, accounts.zoho.in by default. *)
Theorem token_request_credentials (w : World) :
  net_calls (snd (run w)) ≠ [] →
  (∃ rest, net_calls (snd (run w)) = token_req w :: rest) ∧
  ∃ r c s,
    r ≠ EmptyString ∧ c ≠ EmptyString ∧ s ≠ EmptyString ∧
    environ w !! "ZOHO_REFRESH_TOKEN" = Some r ∧
    environ w !! "ZOHO_CLIENT_ID" = Some c ∧
    environ w !! "ZOHO_CLIENT_SECRET" = Some s ∧
    token_req w =
      {| url := "https://" +:+ default "accounts.zoho.in" (environ w !! "ZOHO_DC")
                +:+ "/oauth/v2/token";
         data := [("refresh_token", r); ("client_id", c); ("client_secret", s);
                  ("grant_type", "refresh_token")];
         headers := [];
         method := "POST" |}.
Proof.
  rewrite run_snd. intros Hne. split.
  - destruct (main_cases w) as [(tok & d & h & _ & _ & _ & _ & Hm)|[_ [Hn|Hn]]].
    + rewrite Hm. cbn [snd]. rewrite net_calls_app. by eexists.
    + done.
    + rewrite Hn. by eexists.
  - destruct (present w "ZOHO_CLIENT_ID" && present w "ZOHO_CLIENT_SECRET" &&
              present w "ZOHO_REFRESH_TOKEN") eqn:Hp.
    2:{ destruct (get_access_token_missing w Hp) as (name & _ & _ & Hg).
        destruct Hne. unfold main. by rewrite Hg. }
    apply andb_prop in Hp as [[H1 H2]%andb_prop H3].
    unfold present, nonempty in H1, H2, H3. unfold token_req, token_request.
    destruct (environ w !! "ZOHO_CLIENT_ID") as [c|]; [|done].
    destruct (environ w !! "ZOHO_CLIENT_SECRET") as [s|]; [|done].
    destruct (environ w !! "ZOHO_REFRESH_TOKEN") as [r|]; [|done].
    exists r, c, s.
    apply negb_true_iff, String.eqb_neq in H1, H2, H3. by repeat split.
Qed.

Lemma token_request_credentials_witness :
  ∃ r c s,
    environ w_no_portal !! "ZOHO_REFRESH_TOKEN" = Some r ∧
    environ w_no_portal !! "ZOHO_CLIENT_ID" = Some c ∧
    environ w_no_portal !! "ZOHO_CLIENT_SECRET" = Some s ∧
    data (token_req w_no_portal) =
      [("refresh_token", r); ("client_id", c); ("client_secret", s);
       ("grant_type", "refresh_token")].
Proof.
  assert (net_calls (snd (run w_no_portal)) ≠ []) as Hne
    by (vm_compute; discriminate).
  destruct (token_request_credentials w_no_portal Hne)
    as (_ & r & c & s & _ & _ & _ & Hr & Hc & Hs & Heq).
  exists r, c, s. split; [exact Hr|]. split; [exact Hc|]. split; [exact Hs|].
  by rewrite Heq.
Defined.

(** ** Standard error *)

Lemma stderr_lines_app (t1 t2 : list event) :
  stderr_lines (t1 ++ t2) = stderr_lines t1 ++ stderr_lines t2.
Proof. apply omap_app. Qed.










(** * The variant under Scripts/ *)

(** ** Its monad *)

Lemma vbind_Done {A B} (a : A) (t : list event) (k : A → Variant.V B) :
  ((Variant.Done a, t) : Variant.V A) ≫= k = (fst (k a), t ++ snd (k a)).
Proof. unfold mbind, Variant.V_bind, Variant.vbind. by destruct (k a). Qed.

Lemma vbind_mret {A B} (a : A) (k : A → Variant.V B) :
  (mret a : Variant.V A) ≫= k = k a.
Proof.
  unfold mret, Variant.V_ret, Variant.vret. rewrite vbind_Done. by destruct (k a).
Qed.

Lemma vbind_ext {A B} (m : Variant.V A) (k1 k2 : A → Variant.V B) :
  (∀ a, k1 a = k2 a) → m ≫= k1 = m ≫= k2.
Proof.
  intros H. destruct m as [[a|c|e] t]; [|reflexivity..].
  by rewrite !vbind_Done, H.
Qed.

Lemma variant_aborts_bind {A B} (m : Variant.V A) (k : A → Variant.V B) :
  variant_aborts m → variant_aborts (m ≫= k) ∧ snd (m ≫= k) = snd m.
Proof.
  destruct m as [[a|c|e] t]; unfold variant_aborts; simpl; intros H;
    [done | by split | by split].
Qed.

Lemma variant_aborts_status (m : Variant.V unit) :
  variant_aborts m → Variant.exit_status (fst m) = 1.
Proof. unfold variant_aborts. by destruct m as [[a|c|e] t]. Qed.

(** ** Its configuration reads *)

Lemma variant_get_env (w : World) (name : string) :
  Variant.get_env w name =
    if present w name then mret (setting w name)
    else (Variant.Exit 1, [Print Stdout [Txt (Variant.MISSING +:+ name)]]).
Proof.
  unfold Variant.get_env, present, nonempty, setting.
  by destruct (environ w !! name) as [[|c s]|].
Qed.

(** ** Its token stage *)

Lemma variant_get_access_token_eq (w : World) :
  present w "ZOHO_DC" = true →
  present w "ZOHO_REFRESH_TOKEN" = true →
  present w "ZOHO_CLIENT_ID" = true →
  present w "ZOHO_CLIENT_SECRET" = true →
  Variant.get_access_token w =
    (Variant.emit (Urlopen (variant_token_req w));;
     match variant_token_reply w with
     | inl e =>
         Variant.say [Txt "Error while requesting access token:"; ExnText e];;
         Variant.sys_exit 1
     | inr js =>
         found ← Variant.contains js "access_token";
         if negb found
         then Variant.say [Txt "Failed to get access token. Response:"; Fmt js];;
              Variant.sys_exit 1
         else Variant.subscript js "access_token"
     end).
Proof.
  intros H0 H1 H2 H3. unfold Variant.get_access_token.
  rewrite !variant_get_env, H0, H1, H2, H3, !vbind_mret.
  fold (variant_token_req w). apply vbind_ext; intros _.
  unfold variant_token_reply.
  destruct (urlopen w (variant_token_req w)) as [e|resp]; [reflexivity|].
  destruct (json_loads w (body resp)) as [e|js]; [reflexivity|].
  by rewrite vbind_mret.
Qed.

Lemma variant_get_access_token_missing (w : World) :
  present w "ZOHO_DC" && present w "ZOHO_REFRESH_TOKEN" &&
    present w "ZOHO_CLIENT_ID" && present w "ZOHO_CLIENT_SECRET" = false →
  ∃ name, name ∈ variant_token_settings ∧ present w name = false ∧
    Variant.get_access_token w =
      (Variant.Exit 1, [Print Stdout [Txt (Variant.MISSING +:+ name)]]).
Proof.
  intros H. unfold Variant.get_access_token. rewrite !variant_get_env.
  destruct (present w "ZOHO_DC") eqn:H0.
  2:{ exists "ZOHO_DC". split; [set_solver|done]. }
  rewrite vbind_mret.
  destruct (present w "ZOHO_REFRESH_TOKEN") eqn:H1.
  2:{ exists "ZOHO_REFRESH_TOKEN". split; [set_solver|done]. }
  rewrite vbind_mret.
  destruct (present w "ZOHO_CLIENT_ID") eqn:H2.
  2:{ exists "ZOHO_CLIENT_ID". split; [set_solver|done]. }
  rewrite vbind_mret.
  destruct (present w "ZOHO_CLIENT_SECRET") eqn:H3; [done|].
  exists "ZOHO_CLIENT_SECRET". split; [set_solver|done].
Qed.

(** X14. The variant checks only that the decoded answer has an access_token
    key: whatever value stands under it, even the empty string or null, is
    returned as the token after the one token request. *)
Theorem variant_token_presence_only (w : World) (d : gmap string pyval) (v : pyval) :
  present w "ZOHO_DC" = true →
  present w "ZOHO_REFRESH_TOKEN" = true →
  present w "ZOHO_CLIENT_ID" = true →
  present w "ZOHO_CLIENT_SECRET" = true →
  variant_token_reply w = inr (PDict d) →
  d !! "access_token" = Some v →
  Variant.get_access_token w = (Variant.Done v, [Urlopen (variant_token_req w)]).
Proof.
  intros H0 H1 H2 H3 Hr Hd.
  rewrite variant_get_access_token_eq, Hr by done.
  unfold Variant.contains, Variant.subscript.
  rewrite vbind_mret, Hd. reflexivity.
Qed.

Lemma variant_token_presence_only_witness :
  truthy (PStr EmptyString) = false ∧
  Variant.get_access_token w_variant_empty_token =
    (Variant.Done (PStr EmptyString), [Urlopen (variant_token_req w_variant_empty_token)]).
Proof.
  split; [reflexivity|].
  exact (variant_token_presence_only w_variant_empty_token
           {[ "access_token" := PStr EmptyString ]} (PStr EmptyString)
           eq_refl eq_refl eq_refl eq_refl eq_refl eq_refl).
Defined.

(** X15. When the decoded answer is not a JSON object, the variant's token
    stage never returns a token: a list or string either lacks the key (the
    failure line is printed and the process exits with status 1) or has it as
    an element or substring, and then the subscript raises; null, a boolean or
    a number raises at the membership test. *)
Theorem variant_token_not_object (w : World) (js : pyval) :
  present w "ZOHO_DC" = true →
  present w "ZOHO_REFRESH_TOKEN" = true →
  present w "ZOHO_CLIENT_ID" = true →
  present w "ZOHO_CLIENT_SECRET" = true →
  variant_token_reply w = inr js → (∀ d, js ≠ PDict d) →
  variant_aborts (Variant.get_access_token w) ∧
  net_calls (snd (Variant.get_access_token w)) = [variant_token_req w] ∧
  (∀ s, js = PStr s → is_substring "access_token" s = true →
        Variant.get_access_token w =
          (Variant.Uncaught (Variant.TypeError "indices must be integers"),
           [Urlopen (variant_token_req w)])).
Proof.
  intros H0 H1 H2 H3 Hr Hjs.
  rewrite variant_get_access_token_eq, Hr by done.
  destruct js as [| | | | s|l|d]; try (by repeat split).
  - unfold Variant.contains. rewrite vbind_mret.
    destruct (is_substring "access_token" s) eqn:Hs.
    + by repeat split.
    + repeat split; try done. intros ? [= <-]. congruence.
  - unfold Variant.contains. rewrite vbind_mret.
    by destruct (existsb _ l).
  - by destruct (Hjs d).
Qed.

Lemma variant_token_not_object_witness :
  Variant.get_access_token w_variant_string =
    (Variant.Uncaught (Variant.TypeError "indices must be integers"),
     [Urlopen (variant_token_req w_variant_string)]).
Proof.
  assert (∀ d, PStr "no access_token here" ≠ PDict d) as Hn by (intros d; discriminate).
  destruct (variant_token_not_object w_variant_string (PStr "no access_token here")
              eq_refl eq_refl eq_refl eq_refl eq_refl Hn) as (_ & _ & H).
  exact (H "no access_token here" eq_refl eq_refl).
Defined.

(** ** Its date *)

Lemma datetime_eta (d : datetime) :
  DateTime (year d) (month d) (day d) (hour d) (minute d) (second d) (microsecond d) = d.
Proof. by destruct d. Qed.

(** The next day is the successor on day numbers, and the day before it is
    the day itself. *)
Lemma plus_one_day_spec (d y : datetime) :
  valid_date d = true → plus_one_day d = Ret y →
  toordinal y = toordinal d + 1 ∧ valid_date y = true ∧ minus_one_day y = Ret d.
Proof.
  unfold valid_date, plus_one_day. intros Hv Hy.
  repeat (apply andb_prop in Hv as [Hv ?]). rewrite ?Z.leb_le in *.
  pose proof (days_in_month_bounds (year d) (month d + 1)).
  repeat case_match; simplify_eq; rewrite ?Z.ltb_lt, ?Z.ltb_ge in *.
  - split; [unfold toordinal; simpl; lia|]. split.
    + unfold valid_date. simpl.
      repeat (apply andb_true_intro; split); rewrite ?Z.leb_le; lia.
    + unfold minus_one_day. simpl.
      replace (1 <? day d + 1) with true by (symmetry; lia).
      replace (day d + 1 - 1) with (day d) by lia. by rewrite datetime_eta.
  - assert (day d = days_in_month (year d) (month d)) as Hd by lia.
    split; [|split].
    + unfold toordinal. simpl.
      rewrite (days_before_month_step (year d) (month d + 1)) by lia.
      replace (month d + 1 - 1) with (month d) by lia. lia.
    + unfold valid_date. simpl.
      repeat (apply andb_true_intro; split); rewrite ?Z.leb_le; lia.
    + unfold minus_one_day. simpl.
      replace (1 <? month d + 1) with true by (symmetry; lia).
      replace (month d + 1 - 1) with (month d) by lia.
      rewrite <- Hd. by rewrite datetime_eta.
  - assert (month d = 12) as Hm by lia.
    assert (day d = 31) as Hd.
    { rewrite Hm in *. unfold days_in_month in *. simpl in *. lia. }
    split; [|split].
    + unfold toordinal. simpl.
      rewrite (days_before_year_step (year d)).
      pose proof (days_in_year (year d)) as Hy. rewrite Hm, Hd.
      unfold days_before_month at 1. simpl. lia.
    + unfold valid_date. simpl.
      repeat (apply andb_true_intro; split); rewrite ?Z.leb_le; try lia.
      by vm_compute.
    + unfold minus_one_day. simpl.
      replace (1 <? year d + 1) with true by (symmetry; lia).
      replace (year d + 1 - 1) with (year d) by lia.
      rewrite <- Hm, <- Hd. by rewrite datetime_eta.
Qed.

Lemma plus_one_day_Ret (d : datetime) :
  year d < 9999 → ∃ y, plus_one_day d = Ret y.
Proof.
  intros Hy. unfold plus_one_day. repeat case_match; eauto.
  rewrite ?Z.ltb_ge in *. lia.
Qed.

(** The day before depends on the calendar day alone. *)
Lemma minus_one_day_same_date (a b ya : datetime) :
  same_date a b → minus_one_day a = Ret ya →
  ∃ yb, minus_one_day b = Ret yb ∧ same_date ya yb.
Proof.
  unfold same_date, minus_one_day. intros (Hy & Hm & Hd) Ha.
  rewrite <- Hy, <- Hm, <- Hd.
  repeat case_match; simplify_eq; eexists; split; try reflexivity; done.
Qed.

Lemma strftime_same_date (a b : datetime) :
  same_date a b → strftime_mdY a = strftime_mdY b.
Proof. unfold same_date, strftime_mdY. by intros (-> & -> & ->). Qed.

(** X16. The variant's date is yesterday in India, computed from UTC and
    whatever ZOHO_TIMEZONE says: before 18:30:00 UTC it is the day before the
    UTC date, from 18:30:00 UTC on it is the UTC date itself, as MM-DD-YYYY. *)
Theorem variant_date_is_indian_yesterday (w : World) (utc : datetime) :
  valid_date utc = true → valid_time utc = true → 1 < year utc < 9999 →
  (seconds_of_day utc < 66600 →
   ∃ y, minus_one_day utc = Ret y ∧ toordinal y = toordinal utc - 1 ∧
        Variant.get_yesterday_date w utc = (Variant.Done (mm_dd_yyyy y), [])) ∧
  (66600 ≤ seconds_of_day utc →
   Variant.get_yesterday_date w utc = (Variant.Done (mm_dd_yyyy utc), [])).
Proof.
  intros Hv Ht Hyr. unfold valid_time in Ht.
  repeat (apply andb_prop in Ht as [Ht ?]). rewrite ?Z.leb_le in *.
  unfold seconds_of_day, Variant.get_yesterday_date, plus_5h30.
  split; intros Hs.
  - replace (second utc + minute utc * 60 + hour utc * 3600 + 19800 <? 86400)
      with true by (symmetry; lia).
    destruct (minus_one_day_Ret utc Hv) as [y Hy].
    { intros [= ? ? ?]. lia. }
    destruct (minus_one_day_spec _ _ Hv Hy) as (Hord & Hvy & _).
    exists y. split; [done|]. split; [done|].
    cbn [Variant.lift]. rewrite vbind_Done. cbn [fst snd].
    match goal with |- context [minus_one_day ?n] =>
      destruct (minus_one_day_same_date utc n y) as (yb & -> & Hsd);
        [by repeat split | done |] end.
    cbn [Variant.lift]. rewrite vbind_Done. cbn.
    by rewrite <- (strftime_same_date y yb Hsd), strftime_mm_dd_yyyy.
  - replace (second utc + minute utc * 60 + hour utc * 3600 + 19800 <? 86400)
      with false by (symmetry; lia).
    destruct (plus_one_day_Ret utc) as [d' Hd']; [lia|]. rewrite Hd'.
    destruct (plus_one_day_spec _ _ Hv Hd') as (_ & _ & Hback).
    cbn [Variant.lift]. rewrite vbind_Done. cbn [fst snd].
    match goal with |- context [minus_one_day ?n] =>
      destruct (minus_one_day_same_date d' n utc) as (yb & -> & Hsd);
        [by repeat split | done |] end.
    cbn [Variant.lift]. rewrite vbind_Done. cbn.
    by rewrite <- (strftime_same_date utc yb Hsd), strftime_mm_dd_yyyy.
Qed.

Lemma variant_date_is_indian_yesterday_witness :
  Variant.get_yesterday_date w_bad_zone utc_night = (Variant.Done "02-29-2024", []) ∧
  Variant.get_yesterday_date w_bad_zone utc_evening = (Variant.Done "02-29-2024", []).
Proof.
  split.
  - destruct (variant_date_is_indian_yesterday w_bad_zone utc_night
                eq_refl eq_refl) as [H _]; [by vm_compute|].
    destruct H as (y & Hy & _ & Hd); [by vm_compute|].
    injection Hy as <-. exact Hd.
  - destruct (variant_date_is_indian_yesterday w_bad_zone utc_evening
                eq_refl eq_refl) as [_ H]; [by vm_compute|].
    apply H. by vm_compute.
Defined.

(** ** Its whole run *)

Lemma variant_run_eq (w : World) (utc : datetime) (r : Variant.outcome unit)
    (t : list event) :
  Variant.main w utc = (r, t) → Variant.run w utc = (Variant.exit_status r, t).
Proof. unfold Variant.run. by intros ->. Qed.

Lemma variant_run_fst (w : World) (utc : datetime) :
  fst (Variant.run w utc) = Variant.exit_status (fst (Variant.main w utc)).
Proof. unfold Variant.run. by destruct (Variant.main w utc). Qed.

Lemma variant_run_snd (w : World) (utc : datetime) :
  snd (Variant.run w utc) = snd (Variant.main w utc).
Proof. unfold Variant.run. by destruct (Variant.main w utc). Qed.

Lemma variant_get_access_token_cases (w : World) :
  (∃ tok, Variant.get_access_token w =
            (Variant.Done tok, [Urlopen (variant_token_req w)]))
  ∨ (variant_aborts (Variant.get_access_token w) ∧
     (net_calls (snd (Variant.get_access_token w)) = [] ∨
      net_calls (snd (Variant.get_access_token w)) = [variant_token_req w])).
Proof.
  destruct (present w "ZOHO_DC" && present w "ZOHO_REFRESH_TOKEN" &&
            present w "ZOHO_CLIENT_ID" && present w "ZOHO_CLIENT_SECRET") eqn:Hp.
  - apply andb_prop in Hp as [[[H0 H1]%andb_prop H2]%andb_prop H3].
    rewrite variant_get_access_token_eq by done.
    destruct (variant_token_reply w) as [e|js];
      [right; split; [reflexivity | by right]|].
    destruct js as [| | | | s|l|d];
      try (right; split; [exact I | by right]).
    + unfold Variant.contains. rewrite vbind_mret.
      destruct (is_substring "access_token" s);
        right; (split; [first [exact I | reflexivity] | by right]).
    + unfold Variant.contains. rewrite vbind_mret.
      destruct (existsb _ l);
        right; (split; [first [exact I | reflexivity] | by right]).
    + unfold Variant.contains, Variant.subscript. rewrite vbind_mret.
      destruct (d !! "access_token") as [v|] eqn:Hd.
      * left. by exists v.
      * right. split; [reflexivity | by right].
  - destruct (variant_get_access_token_missing w Hp) as (name & _ & _ & ->).
    right. split; [reflexivity | by left].
Qed.

Lemma plus_one_day_no_exit (d : datetime) (c : Z) : plus_one_day d ≠ SysExit c.
Proof. unfold plus_one_day. by repeat case_match. Qed.

Lemma plus_5h30_no_exit (d : datetime) (c : Z) : plus_5h30 d ≠ SysExit c.
Proof.
  unfold plus_5h30. intros Heq.
  destruct (_ <? 86400); [done|].
  destruct (plus_one_day d) as [y|c'|e] eqn:Hp; [done| |done].
  by destruct (plus_one_day_no_exit _ _ Hp).
Qed.

Lemma variant_date_cases (w : World) (utc : datetime) :
  (∃ date, Variant.get_yesterday_date w utc = (Variant.Done date, []))
  ∨ (variant_aborts (Variant.get_yesterday_date w utc) ∧
     snd (Variant.get_yesterday_date w utc) = []).
Proof.
  unfold Variant.get_yesterday_date.
  pose proof (plus_5h30_no_exit utc) as H1.
  destruct (plus_5h30 utc) as [now|c|e]; [|by destruct (H1 c) | by right].
  cbn [Variant.lift]. rewrite vbind_Done. cbn [fst snd].
  pose proof (minus_one_day_no_exit now) as H2.
  destruct (minus_one_day now) as [y|c|e]; [|by destruct (H2 c) | by right].
  left. by eexists.
Qed.

Lemma variant_report_cases (r : exn + response) :
  net_calls (snd (variant_report r)) = [] ∧
  (fst (variant_report r) = Variant.Done tt ∨ variant_aborts (variant_report r)).
Proof.
  destruct r as [e|resp]; [|split; [done | by left]].
  destruct e; try (match goal with b : option string |- _ => destruct b end);
    split; try done; by right.
Qed.

Lemma variant_log_time_eq (w : World) (utc : datetime) (tok : pyval) :
  present w "ZOHO_PORTAL_ID" = true →
  present w "ZOHO_PROJECT_ID" = true →
  present w "ZOHO_TASK_ID" = true →
  Variant.log_time w utc tok =
    (date ← Variant.get_yesterday_date w utc;
     Variant.emit (Urlopen (variant_log_req w tok date));;
     variant_report (urlopen w (variant_log_req w tok date))).
Proof.
  intros H1 H2 H3. unfold Variant.log_time.
  rewrite !variant_get_env, H1, H2, H3, !vbind_mret.
  apply vbind_ext; intros date.
  change (Variant.log_request tok _ _ _ _) with (variant_log_req w tok date).
  apply vbind_ext; intros _.
  unfold variant_report. by destruct (urlopen w (variant_log_req w tok date)) as [[]|].
Qed.

Lemma variant_log_time_missing (w : World) (utc : datetime) (tok : pyval) :
  present w "ZOHO_PORTAL_ID" && present w "ZOHO_PROJECT_ID" &&
    present w "ZOHO_TASK_ID" = false →
  ∃ name, name ∈ log_settings ∧ present w name = false ∧
    Variant.log_time w utc tok =
      (Variant.Exit 1, [Print Stdout [Txt (Variant.MISSING +:+ name)]]).
Proof.
  intros H. unfold Variant.log_time. rewrite !variant_get_env.
  destruct (present w "ZOHO_PORTAL_ID") eqn:H1.
  2:{ exists "ZOHO_PORTAL_ID". split; [set_solver|done]. }
  rewrite vbind_mret.
  destruct (present w "ZOHO_PROJECT_ID") eqn:H2.
  2:{ exists "ZOHO_PROJECT_ID". split; [set_solver|done]. }
  rewrite vbind_mret.
  destruct (present w "ZOHO_TASK_ID") eqn:H3; [done|].
  exists "ZOHO_TASK_ID". split; [set_solver|done].
Qed.

(** Every run of the variant: either both stages went through to the
    submission, or the process ended with status 1 after at most the token
    request. *)
Lemma variant_main_cases (w : World) (utc : datetime) :
  (∃ tok date,
      Variant.get_access_token w =
        (Variant.Done tok, [Urlopen (variant_token_req w)]) ∧
      Variant.get_yesterday_date w utc = (Variant.Done date, []) ∧
      Variant.main w utc =
        (fst (variant_report (urlopen w (variant_log_req w tok date))),
         [Urlopen (variant_token_req w); Urlopen (variant_log_req w tok date)] ++
         snd (variant_report (urlopen w (variant_log_req w tok date)))))
  ∨ (variant_aborts (Variant.main w utc) ∧
     (net_calls (snd (Variant.main w utc)) = [] ∨
      net_calls (snd (Variant.main w utc)) = [variant_token_req w])).
Proof.
  unfold Variant.main.
  destruct (variant_get_access_token_cases w) as [[tok Ht]|[Ha Hn]].
  2:{ right. by destruct (variant_aborts_bind (Variant.get_access_token w)
                            (λ token, Variant.log_time w utc token) Ha) as [? ->]. }
  rewrite Ht, vbind_Done.
  destruct (present w "ZOHO_PORTAL_ID" && present w "ZOHO_PROJECT_ID" &&
            present w "ZOHO_TASK_ID") eqn:Hp.
  2:{ destruct (variant_log_time_missing w utc tok Hp) as (name & _ & _ & ->).
      right. split; [reflexivity | by right]. }
  apply andb_prop in Hp as [[H1 H2]%andb_prop H3].
  rewrite variant_log_time_eq by done.
  destruct (variant_date_cases w utc) as [[date Hd]|[Ha He]].
  - left. exists tok, date. split; [done|]. split; [done|].
    rewrite Hd, vbind_Done. cbn [fst snd]. unfold Variant.emit.
    rewrite vbind_Done. reflexivity.
  - right.
    destruct (variant_aborts_bind (Variant.get_yesterday_date w utc)
                (λ date, Variant.emit (Urlopen (variant_log_req w tok date));;
                         variant_report (urlopen w (variant_log_req w tok date)))
                Ha) as [Hab Hs].
    split; [exact Hab|]. right. cbn [snd]. by rewrite Hs, He.
Qed.

(** X17. Whenever the variant sends a second request, its body is exactly
    date, hours, bill_status and notes, in this order: hours is always
    "09:00" whatever ZOHO_TIME_START and ZOHO_TIME_END say, notes is the notes
    prefix alone without the date, and there is never an owner field. *)
Theorem variant_payload_fixed (w : World) (utc : datetime) (req1 req2 : request) :
  net_calls (snd (Variant.run w utc)) = [req1; req2] →
  ∃ date,
    Variant.get_yesterday_date w utc = (Variant.Done date, []) ∧
    data req2 =
      [("date", date); ("hours", "09:00"); ("bill_status", bill_status w);
       ("notes", default Variant.DEFAULT_NOTES (environ w !! "ZOHO_NOTES_PREFIX"))] ∧
    field "owner" (data req2) = None.
Proof.
  rewrite variant_run_snd. intros Hn.
  destruct (variant_main_cases w utc) as [(tok & date & _ & Hd & Hm)|[_ [Hn'|Hn']]];
    [|congruence..].
  rewrite Hm in Hn. cbn [snd] in Hn. rewrite net_calls_app in Hn.
  destruct (variant_report_cases (urlopen w (variant_log_req w tok date))) as [Hq _].
  rewrite Hq in Hn. injection Hn as _ <-.
  exists date. by repeat split.
Qed.

Lemma variant_payload_fixed_witness :
  time_start w_variant_windowed = "10:00" ∧ time_end w_variant_windowed = "12:00" ∧
  present w_variant_windowed "ZOHO_USER_ID" = true ∧
  ∃ date,
    Variant.get_yesterday_date w_variant_windowed utc_night = (Variant.Done date, []) ∧
    data (variant_log_req w_variant_windowed (PStr "tok") "02-29-2024") =
      [("date", date); ("hours", "09:00"); ("bill_status", "Billable");
       ("notes", "POC project implimentation on PLGJ for CORTEX AI")].
Proof.
  do 3 (split; [reflexivity|]).
  destruct (variant_payload_fixed w_variant_windowed utc_night
              (variant_token_req w_variant_windowed)
              (variant_log_req w_variant_windowed (PStr "tok") "02-29-2024")
              eq_refl) as (date & Hdate & Hd & _).
  exists date. split; [exact Hdate | exact Hd].
Defined.

Lemma variant_silent_bind {A B} (m : Variant.V A) (k : A → Variant.V B) :
  variant_silent m → (∀ a, variant_silent (k a)) → variant_silent (m ≫= k).
Proof.
  destruct m as [[a|c|e] t]; unfold variant_silent at 1; cbn [snd];
    intros Hm Hk; [|done..].
  rewrite vbind_Done. specialize (Hk a). unfold variant_silent in *. cbn [snd].
  by rewrite stderr_lines_app, Hm, Hk.
Qed.

Lemma variant_silent_get_env (w : World) (name : string) :
  variant_silent (Variant.get_env w name).
Proof. rewrite variant_get_env. by destruct (present w name). Qed.

(** X18. The variant never writes to standard error, not even when it
    fails: all its messages are printed to standard output.  Every run ends
    with status 0 or 1 after at most two network calls, the token request
    first. *)
Theorem variant_never_stderr (w : World) (utc : datetime) :
  stderr_lines (snd (Variant.run w utc)) = [] ∧
  (fst (Variant.run w utc) = 0 ∨ fst (Variant.run w utc) = 1) ∧
  (net_calls (snd (Variant.run w utc)) = [] ∨
   net_calls (snd (Variant.run w utc)) = [variant_token_req w] ∨
   ∃ tok date,
     net_calls (snd (Variant.run w utc)) =
       [variant_token_req w; variant_log_req w tok date]).
Proof.
  rewrite variant_run_fst, variant_run_snd. split.
  - change (variant_silent (Variant.main w utc)). unfold Variant.main.
    apply variant_silent_bind.
    + unfold Variant.get_access_token.
      do 4 (apply variant_silent_bind; [apply variant_silent_get_env | intros ?]).
      apply variant_silent_bind; [done | intros _].
      apply variant_silent_bind.
      * destruct (urlopen w _) as [e|resp]; [done|].
        by destruct (json_loads w (body resp)).
      * intros js. apply variant_silent_bind; [by destruct js | intros found].
        destruct found; [|done].
        destruct js as [| | | | | |d]; try done.
        unfold Variant.subscript. by destruct (d !! "access_token").
    + intros tok. unfold Variant.log_time.
      do 3 (apply variant_silent_bind; [apply variant_silent_get_env | intros ?]).
      apply variant_silent_bind.
      { destruct (variant_date_cases w utc) as [[date ->]|[_ He]]; [done|].
        unfold variant_silent. by rewrite He. }
      intros date. apply variant_silent_bind; [done | intros _].
      destruct (urlopen w _) as [e|resp]; [|done].
      destruct e as [code reason [text|]| | | | | | | | | |]; done.
  - destruct (variant_main_cases w utc) as [(tok & date & _ & _ & Hm)|[Ha Hn]].
    + rewrite Hm. cbn [fst snd]. rewrite net_calls_app.
      destruct (variant_report_cases (urlopen w (variant_log_req w tok date)))
        as [-> Hr].
      split; [|right; right; by exists tok, date].
      destruct Hr as [->|Ha]; [by left|].
      right. by apply variant_aborts_status.
    + split; [right; by apply variant_aborts_status|].
      destruct Hn as [->| ->]; auto.
Qed.

Lemma variant_never_stderr_witness :
  stderr_lines (snd (Variant.run w_ok utc_night)) = [] ∧
  stderr_lines (snd (run w_no_portal)) ≠ [].
Proof.
  split; [exact (proj1 (variant_never_stderr w_ok utc_night))|].
  vm_compute. discriminate.
Defined.

(** X19. The variant has no default for the data-center host: it reads
    ZOHO_DC, ZOHO_REFRESH_TOKEN, ZOHO_CLIENT_ID and ZOHO_CLIENT_SECRET in this
    order, and when one of them is missing or empty the whole run is one line
    on standard output naming the first such setting, and exit status 1; no
    request is sent. *)
Theorem variant_token_setting_missing (w : World) (utc : datetime) (name : string) :
  first_missing w
    ["ZOHO_DC"; "ZOHO_REFRESH_TOKEN"; "ZOHO_CLIENT_ID"; "ZOHO_CLIENT_SECRET"]
    = Some name →
  Variant.run w utc =
    (1, [Print Stdout [Txt ("Missing environment variable: " +:+ name)]]).
Proof.
  unfold first_missing. cbn [List.find]. intros Hf.
  apply (variant_run_eq w utc (Variant.Exit 1)).
  unfold Variant.main, Variant.get_access_token. rewrite !variant_get_env.
  destruct (present w "ZOHO_DC"); cbn [negb] in Hf; [|by injection Hf as <-].
  rewrite vbind_mret.
  destruct (present w "ZOHO_REFRESH_TOKEN"); cbn [negb] in Hf;
    [|by injection Hf as <-].
  rewrite vbind_mret.
  destruct (present w "ZOHO_CLIENT_ID"); cbn [negb] in Hf; [|by injection Hf as <-].
  rewrite vbind_mret.
  destruct (present w "ZOHO_CLIENT_SECRET"); cbn [negb] in Hf;
    [done | by injection Hf as <-].
Qed.

Lemma variant_token_setting_missing_witness :
  fst (run w_ok) = 0 ∧
  Variant.run w_ok utc_night =
    (1, [Print Stdout [Txt "Missing environment variable: ZOHO_DC"]]) ∧
  Variant.run w_no_secret utc_night =
    (1, [Print Stdout [Txt "Missing environment variable: ZOHO_DC"]]) ∧
  Variant.run (stub_world (delete "ZOHO_CLIENT_ID" (delete "ZOHO_CLIENT_SECRET" env_variant))
                 token_ok) utc_night =
    (1, [Print Stdout [Txt "Missing environment variable: ZOHO_CLIENT_ID"]]).
Proof.
  split; [reflexivity|]. split; [|split].
  - exact (variant_token_setting_missing w_ok utc_night "ZOHO_DC" eq_refl).
  - exact (variant_token_setting_missing w_no_secret utc_night "ZOHO_DC" eq_refl).
  - exact (variant_token_setting_missing
             (stub_world (delete "ZOHO_CLIENT_ID" (delete "ZOHO_CLIENT_SECRET" env_variant))
                token_ok) utc_night "ZOHO_CLIENT_ID" eq_refl).
Defined.

(** X20. The two scripts agree where their inputs do: when the zone's clock
    reads UTC plus 5:30 and the main script's window computation returns, the
    variant's date is the same string, and under the default 09:30-18:30 window
    the variant's fixed hours are the computed duration. *)
Theorem variants_agree (w : World) (utc : datetime) (d h : string) (t : list event) :
  calc_yesterday_hours w = (Ret (d, h), t) →
  plus_5h30 utc = Ret (now_in w (tz_name w)) →
  Variant.get_yesterday_date w utc = (Variant.Done d, []) ∧
  (time_start w = "09:30" → time_end w = "18:30" → h = Variant.calculate_hours).
Proof.
  intros Hc Hu.
  destruct (calc_Ret_inv w d h t Hc)
    as (_ & Hz & y & sh & sm & eh & em & Hy & _ & _ & _ & _ & -> & _).
  split.
  - unfold Variant.get_yesterday_date. rewrite Hu. cbn [Variant.lift].
    rewrite vbind_Done. cbn [fst snd]. rewrite Hy. reflexivity.
  - intros Hs He.
    rewrite (calc_parsed w y 9 30 18 30) in Hc; try done; try lia.
    + by injection Hc as <-.
    + by rewrite Hs.
    + by rewrite He.
Qed.

Lemma variants_agree_witness :
  Variant.get_yesterday_date w_ok utc_night = (Variant.Done "02-29-2024", []) ∧
  "09:00" = Variant.calculate_hours.
Proof.
  destruct (variants_agree w_ok utc_night "02-29-2024" "09:00" [] eq_refl eq_refl)
    as [H1 H2].
  split; [exact H1 | exact (H2 eq_refl eq_refl)].
Defined.
